(** * HBOS: histogram-based outlier scores (pyod/models/hbos.py)

    A shallow embedding of the [HBOS] detector and of the numpy and
    scikit-learn routines it calls.

    Numbers.  The program computes on IEEE doubles.  In the embedding of
    the detector every training value, query value, bin edge, density,
    [alpha] and [tol] is an exact rational ([Q]), so that binning and the
    branch structure of the scoring loop run by computation; the
    logarithmic scores and their sums are real numbers ([R]).  Rounding,
    overflow, NaN and the infinities are outside that arithmetic, and three
    things that happen on doubles cannot happen in it:

    - two edges of [np.linspace] coincide after rounding, a bin has width
      zero, its density is NaN and the assertion in the loop of [fit]
      fails;
    - the widening of an empty range by 0.5 is absorbed by a constant
      column of large magnitude, and the range stays empty;
    - a density far below [alpha] is absorbed by the sum
      [density + alpha], and two bins of different densities have the
      same score.

    Module [f64] runs the routines of [np.histogram] on doubles and
    exhibits the three.  What is stated of the arrays and scores that
    [fit] computes is therefore stated of the calls of [fit] that succeed,
    orders between scores are stated as [<=], and what is stated of the
    calls that fail is stated of [fit_with], which is [fit] with
    [np.histogram] left open: any result and any exception.

    Arrays.  [hist_] and [bin_edges_] are two-dimensional arrays that the
    program only ever reads and writes one column [[:, i]] at a time; they
    are kept as the list of their columns.  A data matrix [X] is the list
    of its rows. *)

From Stdlib Require Import List ZArith QArith Qabs Qminmax Reals Bool.
From Stdlib Require Import Qreals Sorted Lia Psatz.
From Stdlib Require Import Floats.
Import ListNotations.

Set Implicit Arguments.

(** ** Exceptions and results *)

Inductive exn : Type :=
| ValueError
| IndexError
| AssertionError
| AttributeError
| NotFittedError.

Inductive result (A : Type) : Type :=
| Ok (a : A)
| Raise (e : exn).

Arguments Ok {A} a.
Arguments Raise {A} e.

Definition bind {A B : Type} (r : result A) (k : A -> result B) : result B :=
  match r with
  | Ok a => k a
  | Raise e => Raise e
  end.

Declare Scope result_scope.
Delimit Scope result_scope with result.
Notation "'let*' x ':=' r 'in' k" := (bind r (fun x => k))
  (at level 10, x pattern, r at level 100, k at level 200) : result_scope.
Local Open Scope result_scope.

Definition is_ok {A : Type} (r : result A) : bool :=
  match r with Ok _ => true | Raise _ => false end.

(** [mapM f l]: run [f] on the elements of [l] from left to right and stop
    at the first exception. *)
Fixpoint mapM {A B : Type} (f : A -> result B) (l : list A) : result (list B) :=
  match l with
  | [] => Ok []
  | a :: l' =>
      let* b := f a in
      let* bs := mapM f l' in
      Ok (b :: bs)
  end.

(** Strict comparison of rationals: [x < y]. *)
Definition Qlt_bool (x y : Q) : bool := negb (Qle_bool y x).

(** ** numpy *)

Module np.

(** Indexing [a[k]] of a one-dimensional array: a negative index counts
    from the end, an index outside [-len, len) raises IndexError. *)
Definition get {A : Type} (a : list A) (k : Z) : result A :=
  let len := Z.of_nat (length a) in
  let k' := if (k <? 0)%Z then (k + len)%Z else k in
  if ((0 <=? k') && (k' <? len))%Z
  then match nth_error a (Z.to_nat k') with
       | Some x => Ok x
       | None => Raise IndexError
       end
  else Raise IndexError.

(** [np.zeros([rows, cols])], as the list of its [cols] columns; a
    negative dimension raises ValueError. *)
Definition zeros (rows : Z) (cols : nat) : result (list (list Q)) :=
  if (rows <? 0)%Z then Raise ValueError
  else Ok (repeat (repeat 0%Q (Z.to_nat rows)) cols).

(** [np.diff]: differences of consecutive elements. *)
Fixpoint diff (a : list Q) : list Q :=
  match a with
  | x :: ((y :: _) as tl) => (y - x)%Q :: diff tl
  | _ => []
  end.

Definition sum (a : list Q) : Q := fold_right Qplus 0%Q a.

Definition Rsum (a : list R) : R := fold_right Rplus 0%R a.

(** Element-wise product of two arrays of the same length. *)
Fixpoint mul (a b : list Q) : list Q :=
  match a, b with
  | x :: a', y :: b' => (x * y)%Q :: mul a' b'
  | _, _ => []
  end.

(** [np.isclose(a, b, atol=atol)] with the default [rtol = 1e-05]:
    [|a - b| <= atol + rtol * |b|]. *)
Definition isclose (a b atol : Q) : bool :=
  Qle_bool (Qabs (a - b)) (atol + (1 # 100000) * Qabs b).

(** [np.log2]. *)
Definition log2 (x : R) : R := (ln x / ln 2)%R.

(** [np.min] of a one-dimensional array; ValueError on an empty one. *)
Definition min (a : list R) : result R :=
  match a with
  | [] => Raise ValueError
  | x :: a' => Ok (fold_left Rmin a' x)
  end.

(** [np.linspace(start, stop, n + 1)]: [n + 1] evenly spaced points, the
    last one being [stop] itself. *)
Definition linspace (start stop : Q) (n : nat) : list Q :=
  let step := ((stop - start) / inject_Z (Z.of_nat n))%Q in
  map (fun k => (inject_Z (Z.of_nat k) * step + start)%Q) (seq 0 n) ++ [stop].

(** The range [np.histogram] bins over: the minimum and maximum of the
    data, widened by 0.5 on each side when they coincide. *)
Definition outer_edges (a : list Q) : Q * Q :=
  match a with
  | [] => (0, 1)%Q
  | x :: a' =>
      let first_edge := fold_left Qmin a' x in
      let last_edge := fold_left Qmax a' x in
      if Qeq_bool first_edge last_edge
      then (first_edge - (1 # 2), last_edge + (1 # 2))%Q
      else (first_edge, last_edge)
  end.

(** Number of data points in each bin: every bin is half-open
    [[lo, hi)] except the last one, which is closed [[lo, hi]]. *)
Fixpoint bin_counts (a : list Q) (edges : list Q) : list nat :=
  match edges with
  | lo :: ((hi :: rest) as tl) =>
      let inside x :=
        Qle_bool lo x &&
        match rest with
        | [] => Qle_bool x hi
        | _ :: _ => Qlt_bool x hi
        end in
      length (filter inside a) :: bin_counts a tl
  | _ => []
  end.

(** Element-wise [n / db / total]. *)
Fixpoint density (n : list nat) (db : list Q) (total : nat) : list Q :=
  match n, db with
  | c :: n', w :: db' =>
      (inject_Z (Z.of_nat c) / w / inject_Z (Z.of_nat total))%Q
      :: density n' db' total
  | _, _ => []
  end.

(** [np.histogram(a, bins=bins, density=True)] for an integer [bins]. *)
Definition histogram (a : list Q) (bins : Z) : result (list Q * list Q) :=
  if (bins <? 1)%Z then Raise ValueError
  else
    let '(first_edge, last_edge) := outer_edges a in
    let bin_edges := linspace first_edge last_edge (Z.to_nat bins) in
    let n := bin_counts a bin_edges in
    let db := diff bin_edges in
    Ok (density n db (fold_right Nat.add 0%nat n), bin_edges).

(** Monotonicity test of [np.digitize]: [1] when the bins never
    decrease, [-1] when they never increase (and are not constant), [0]
    otherwise. *)
Fixpoint nondecreasing (b : list Q) : bool :=
  match b with
  | x :: ((y :: _) as tl) => Qle_bool x y && nondecreasing tl
  | _ => true
  end.

Fixpoint nonincreasing (b : list Q) : bool :=
  match b with
  | x :: ((y :: _) as tl) => Qle_bool y x && nonincreasing tl
  | _ => true
  end.

Definition monotonicity (b : list Q) : Z :=
  if nondecreasing b then 1%Z
  else if nonincreasing b then (-1)%Z
  else 0%Z.

(** [np.searchsorted(b, x, side='left')] on a sorted [b]: the first
    index [k] with [x <= b[k]]. *)
Fixpoint searchsorted_left (b : list Q) (x : Q) : nat :=
  match b with
  | [] => 0
  | y :: b' => if Qlt_bool y x then S (searchsorted_left b' x) else 0
  end.

(** [np.digitize(x, bins, right=True)]. *)
Definition digitize (x : list Q) (bins : list Q) : result (list Z) :=
  let mono := monotonicity bins in
  if (mono =? 0)%Z then Raise ValueError
  else if (mono =? -1)%Z then
    Ok (map (fun v => (Z.of_nat (length bins)
                       - Z.of_nat (searchsorted_left (rev bins) v))%Z) x)
  else Ok (map (fun v => Z.of_nat (searchsorted_left bins v)) x).

End np.

(** ** numpy on doubles *)

(** The routines of [np.histogram] as they run on the doubles of the
    interpreter.  [of_nat k] is the double of a count or of an index
    [k]. *)
Module f64.

Definition of_nat (k : nat) : float :=
  PrimFloat.of_uint63 (Uint63.of_Z (Z.of_nat k)).

Definition fmin (x y : float) : float := if PrimFloat.ltb y x then y else x.

Definition fmax (x y : float) : float := if PrimFloat.ltb x y then y else x.

(** [_get_outer_edges] of numpy/lib/histograms.py, on finite data with no
    [range] given: [a.min()] and [a.max()], and, "to avoid divide by
    zero", [first_edge - 0.5] and [last_edge + 0.5] when the two are
    equal. *)
Definition outer_edges (a : list float) : float * float :=
  match a with
  | [] => (0, 1)%float
  | x :: a' =>
      let first_edge := fold_left fmin a' x in
      let last_edge := fold_left fmax a' x in
      if PrimFloat.eqb first_edge last_edge
      then ((first_edge - 0.5)%float, (last_edge + 0.5)%float)
      else (first_edge, last_edge)
  end.

(** [np.linspace(start, stop, n + 1)]: [step = (stop - start) / n], the
    points [k * step + start] (or [k / n * (stop - start) + start] when
    the step is zero), the last point being set to [stop]. *)
Definition linspace (start stop : float) (n : nat) : list float :=
  let div := of_nat n in
  let delta := (stop - start)%float in
  let step := (delta / div)%float in
  map (fun k =>
         if PrimFloat.eqb step 0
         then (of_nat k / div * delta + start)%float
         else (of_nat k * step + start)%float)
      (seq 0 n)
  ++ [stop].

(** The bin edges [np.histogram(a, bins=bins)] computes for an integer
    [bins >= 1]. *)
Definition edges (a : list float) (bins : nat) : list float :=
  let '(first_edge, last_edge) := outer_edges a in
  linspace first_edge last_edge bins.

Fixpoint diff (a : list float) : list float :=
  match a with
  | x :: ((y :: _) as tl) => (y - x)%float :: diff tl
  | _ => []
  end.

(** Number of data points in each bin: every bin is half-open
    [[lo, hi)] except the last one, which is closed [[lo, hi]]. *)
Fixpoint bin_counts (a : list float) (edges : list float) : list nat :=
  match edges with
  | lo :: ((hi :: rest) as tl) =>
      let inside x :=
        PrimFloat.leb lo x &&
        match rest with
        | [] => PrimFloat.leb x hi
        | _ :: _ => PrimFloat.ltb x hi
        end in
      length (filter inside a) :: bin_counts a tl
  | _ => []
  end.

(** Element-wise [n / db / n.sum()]. *)
Fixpoint density (n : list nat) (db : list float) (total : nat) : list float :=
  match n, db with
  | c :: n', w :: db' =>
      (of_nat c / w / of_nat total)%float :: density n' db' total
  | _, _ => []
  end.

(** The densities and the edges [np.histogram(a, bins=bins,
    density=True)] returns when the range of its edges is not empty.  The
    routine computes the bin of a value from the quotient of its distance
    to the first edge by the range and corrects it against the edges,
    which gives the counts of [bin_counts]. *)
Definition histogram (a : list float) (bins : nat) : list float * list float :=
  let bin_edges := edges a bins in
  let n := bin_counts a bin_edges in
  (density n (diff bin_edges) (fold_right Nat.add 0%nat n), bin_edges).

Fixpoint mul (a b : list float) : list float :=
  match a, b with
  | x :: a', y :: b' => (x * y)%float :: mul a' b'
  | _, _ => []
  end.

(** [np.sum] of a short one-dimensional array: the elements are added
    one after the other. *)
Definition sum (a : list float) : float :=
  fold_left PrimFloat.add a 0%float.

(** [np.isclose(a, b, atol=atol)] with the default [rtol = 1e-05]:
    [|a - b| <= atol + rtol * |b|] for a finite [b], and [a == b]. *)
Definition isclose (a b atol : float) : bool :=
  (PrimFloat.leb (PrimFloat.abs (a - b))
                 (atol + 0x1.4f8b588e368f1p-17 * PrimFloat.abs b)%float
   && PrimFloat.is_finite b)
  || PrimFloat.eqb a b.

(** The condition of the assert statement in the loop of [fit],
    [np.isclose(1, np.sum(hist * np.diff(bin_edges)), atol=0.1)], on the
    column [a]; the double of 0.1 is [0x1.999999999999ap-4]. *)
Definition assertion (a : list float) (bins : nat) : bool :=
  let '(hist, bin_edges) := histogram a bins in
  isclose 1 (sum (mul hist (diff bin_edges))) 0x1.999999999999ap-4.

(** The body of the loop of [fit] on the column [a]: the histogram is
    computed and the assert statement is run on it. *)
Definition fit_column (a : list float) (bins : nat)
  : result (list float * list float) :=
  if assertion a bins then Ok (histogram a bins) else Raise AssertionError.

End f64.

(** ** scikit-learn and the pyod helpers *)

Definition matrix : Type := list (list Q).

Definition n_rows (X : matrix) : nat := length X.
Definition n_cols (X : matrix) : nat := length (hd [] X).

(** [X[:, i]]. *)
Definition column (X : matrix) (i : nat) : list Q :=
  map (fun row => nth i row 0%Q) X.

(** [sklearn.utils.check_array] with its defaults: the input has to be a
    two-dimensional array (all rows of one length) with at least one
    sample and at least one feature.  Its elements are numbers by
    typing. *)
Definition check_array (X : matrix) : result matrix :=
  if ((1 <=? n_rows X) && (1 <=? n_cols X)
      && forallb (fun row => length row =? n_cols X) X)%nat
  then Ok X
  else Raise ValueError.

(** Modelled from the spec: [check_parameter] of pyod/utils/utility.py,
    the parameter-range validation helper, which is not part of the
    sources at hand.  The ranges are open intervals, "(0,1)": the value is
    accepted when it lies strictly between [low] and [high]. *)
Definition check_parameter (param low high : Q) : result bool :=
  if Qlt_bool low param && Qlt_bool param high
  then Ok true
  else Raise ValueError.

(** ** The detector *)

Record HBOS : Type := mkHBOS {
  contamination : Q;
  n_bins : Z;
  alpha : Q;
  tol : Q;
  _classes : option Z;
  hist_ : option (list (list Q));
  bin_edges_ : option (list (list Q));
  decision_scores_ : option (list R)
}.

(** Assignments to the attributes of the detector. *)
Definition set_n_bins (self : HBOS) (n : Z) : HBOS :=
  mkHBOS (contamination self) n (alpha self) (tol self)
         (_classes self) (hist_ self) (bin_edges_ self) (decision_scores_ self).

Definition set_classes (self : HBOS) (c : Z) : HBOS :=
  mkHBOS (contamination self) (n_bins self) (alpha self) (tol self)
         (Some c) (hist_ self) (bin_edges_ self) (decision_scores_ self).

Definition set_hist (self : HBOS) (h : list (list Q)) : HBOS :=
  mkHBOS (contamination self) (n_bins self) (alpha self) (tol self)
         (_classes self) (Some h) (bin_edges_ self) (decision_scores_ self).

Definition set_bin_edges (self : HBOS) (e : list (list Q)) : HBOS :=
  mkHBOS (contamination self) (n_bins self) (alpha self) (tol self)
         (_classes self) (hist_ self) (Some e) (decision_scores_ self).

Definition set_decision_scores (self : HBOS) (d : list R) : HBOS :=
  mkHBOS (contamination self) (n_bins self) (alpha self) (tol self)
         (_classes self) (hist_ self) (bin_edges_ self) (Some d).

(** Modelled from the spec: [BaseDetector.__init__] of pyod/models/base.py,
    which is not part of the sources at hand.  The spec lists the
    estimator lifecycle as an external collaborator to which
    [contamination] is passed through; the class docstring gives its
    range as "(0., 0.5)".  The base constructor stores the value and
    rejects one outside that range. *)
Definition BaseDetector_init (contamination : Q) : result Q :=
  if Qlt_bool 0 contamination && Qle_bool contamination (1 # 2)
  then Ok contamination
  else Raise ValueError.

(** [HBOS.__init__]. *)
Definition __init__ (n_bins : Z) (alpha tol contamination : Q) : result HBOS :=
  let* c := BaseDetector_init contamination in
  let self := mkHBOS c n_bins alpha tol None None None None in
  let* _ := check_parameter alpha 0 1 in
  let* _ := check_parameter tol 0 1 in
  Ok self.

(** [HBOS()] with the defaults of the signature. *)
Definition default_HBOS : result HBOS :=
  __init__ 10 (1 # 10) (1 # 2) (1 # 10).

(** Attribute access [self.hist_] and [self.bin_edges_]. *)
Definition get_attr {A : Type} (a : option A) : result A :=
  match a with
  | Some v => Ok v
  | None => Raise AttributeError
  end.

(** Column [[:, i]] of a stored array. *)
Definition get_col (a : list (list Q)) (i : nat) : result (list Q) :=
  match nth_error a i with
  | Some c => Ok c
  | None => Raise IndexError
  end.

(** Assignment to column [[:, i]] of a stored array. *)
Fixpoint set_col (a : list (list Q)) (i : nat) (c : list Q) : list (list Q) :=
  match a, i with
  | [], _ => []
  | _ :: a', O => c :: a'
  | x :: a', S i' => x :: set_col a' i' c
  end.

(** The body of the loop over the samples in
    [_calculate_outlier_scores]: the score of the value [x] of sample [j]
    on dimension [i], [bin_ind] being [bin_inds[j]], [edges] the column
    [bin_edges_[:, i]] and [out_score_i] the scores of the bins. *)
Definition score_sample (self : HBOS) (edges : list Q) (out_score_i : list R)
           (x : Q) (bin_ind : Z) : result R :=
  if (bin_ind =? 0)%Z then
    let* e0 := np.get edges 0 in
    let dist := (e0 - x)%Q in
    let* e1 := np.get edges 1 in
    let* e0' := np.get edges 0 in
    let bin_width := (e1 - e0')%Q in
    if Qle_bool dist (bin_width * tol self)
    then np.get out_score_i 0
    else np.min out_score_i
  else if (bin_ind =? n_bins self + 1)%Z then
    let* el := np.get edges (-1) in
    let dist := (x - el)%Q in
    let* el' := np.get edges (-1) in
    let* el2 := np.get edges (-2) in
    let bin_width := (el' - el2)%Q in
    if Qle_bool dist (bin_width * tol self)
    then np.get out_score_i (n_bins self - 1)
    else np.min out_score_i
  else np.get out_score_i (bin_ind - 1).

(** The body of the loop over the dimensions: the scores of all samples
    on dimension [i]. *)
Definition score_feature (self : HBOS) (X : matrix) (i : nat) : result (list R) :=
  let* bin_edges := get_attr (bin_edges_ self) in
  let* edges := get_col bin_edges i in
  let* bin_inds := np.digitize (column X i) edges in
  let* hist := get_attr (hist_ self) in
  let* h := get_col hist i in
  let out_score_i := map (fun d => np.log2 (Q2R (d + alpha self))) h in
  mapM (fun xb => score_sample self edges out_score_i (fst xb) (snd xb))
       (combine (column X i) bin_inds).

(** Row [j] of the array whose columns are [cols]. *)
Definition row_of (cols : list (list R)) (j : nat) : list R :=
  map (fun c => nth j c 0%R) cols.

(** [HBOS._calculate_outlier_scores]: an [n_samples x n_features] array,
    filled one dimension after the other. *)
Definition _calculate_outlier_scores (self : HBOS) (X : matrix)
  : result (list (list R)) :=
  let n_samples := n_rows X in
  let n_features := n_cols X in
  let* cols := mapM (score_feature self X) (seq 0 n_features) in
  Ok (map (row_of cols) (seq 0 n_samples)).

(** [np.sum(outlier_scores, axis=1) * -1]. *)
Definition invert_sum (outlier_scores : list (list R)) : list R :=
  map (fun row => (np.Rsum row * -1)%R) outlier_scores.

(** The loop of [fit] over the dimensions [cols]: each histogram is
    stored in its column of [hist_] and [bin_edges_] and then checked. *)
Fixpoint fit_features (self : HBOS) (X : matrix) (cols : list nat)
  : HBOS * result unit :=
  match cols with
  | [] => (self, Ok tt)
  | i :: cols' =>
      match np.histogram (column X i) (n_bins self) with
      | Raise e => (self, Raise e)
      | Ok (h, e) =>
          match hist_ self, bin_edges_ self with
          | Some hist, Some bin_edges =>
              let self' :=
                set_bin_edges (set_hist self (set_col hist i h))
                              (set_col bin_edges i e) in
              if np.isclose 1 (np.sum (np.mul h (np.diff e))) (1 # 10)
              then fit_features self' X cols'
              else (self', Raise AssertionError)
          | _, _ => (self, Raise AttributeError)
          end
      end
  end.

(** Modelled from the spec: [BaseDetector._process_decision_scores] of
    pyod/models/base.py, the contamination-based thresholding step, which
    is not part of the sources at hand.  It derives a threshold and the
    labels from [decision_scores_] and leaves the attributes kept here as
    they are. *)
Definition _process_decision_scores (self : HBOS) : HBOS := self.

(** Modelled from the spec: [BaseDetector._set_n_classes] of
    pyod/models/base.py, part of the estimator lifecycle the spec leaves to
    an external collaborator and not among the sources at hand.  Called
    with [y = None] it records that there are two classes and touches no
    other attribute. *)
Definition _set_n_classes (self : HBOS) : HBOS := set_classes self 2.

(** [HBOS.fit] with [y = None].  The detector is updated in place, so the
    detector as the call leaves it is returned also when the call
    raises. *)
Definition fit (self : HBOS) (X : matrix) : HBOS * result unit :=
  match check_array X with
  | Raise e => (self, Raise e)
  | Ok X =>
      let self := _set_n_classes self in
      let n_features := n_cols X in
      match np.zeros (n_bins self) n_features with
      | Raise e => (self, Raise e)
      | Ok z =>
          let self := set_hist self z in
          match np.zeros (n_bins self + 1) n_features with
          | Raise e => (self, Raise e)
          | Ok z' =>
              let self := set_bin_edges self z' in
              match fit_features self X (seq 0 n_features) with
              | (self, Raise e) => (self, Raise e)
              | (self, Ok _) =>
                  match _calculate_outlier_scores self X with
                  | Raise e => (self, Raise e)
                  | Ok outlier_scores =>
                      let self :=
                        set_decision_scores self (invert_sum outlier_scores) in
                      (_process_decision_scores self, Ok tt)
                  end
              end
          end
      end
  end.

(** [sklearn.utils.validation.check_is_fitted(self, ['hist_',
    'bin_edges_'])]: NotFittedError unless both attributes exist. *)
Definition check_is_fitted (self : HBOS) : result unit :=
  match hist_ self, bin_edges_ self with
  | Some _, Some _ => Ok tt
  | _, _ => Raise NotFittedError
  end.

(** [HBOS.decision_function]. *)
Definition decision_function (self : HBOS) (X : matrix) : result (list R) :=
  let* _ := check_is_fitted self in
  let* X := check_array X in
  let* outlier_scores := _calculate_outlier_scores self X in
  Ok (invert_sum outlier_scores).

(** ** [fit] whatever [np.histogram] does *)

(** On doubles [np.histogram] may return rounded arrays, arrays that
    hold NaN, or raise.  [fit_features_with] and [fit_with] are the loop
    of [fit] and [fit] itself with the routine left open: [histogram]
    stands for [np.histogram] as the interpreter runs it.  [fit] is
    [fit_with np.histogram]. *)
Fixpoint fit_features_with
         (histogram : list Q -> Z -> result (list Q * list Q))
         (self : HBOS) (X : matrix) (cols : list nat) : HBOS * result unit :=
  match cols with
  | [] => (self, Ok tt)
  | i :: cols' =>
      match histogram (column X i) (n_bins self) with
      | Raise e => (self, Raise e)
      | Ok (h, e) =>
          match hist_ self, bin_edges_ self with
          | Some hist, Some bin_edges =>
              let self' :=
                set_bin_edges (set_hist self (set_col hist i h))
                              (set_col bin_edges i e) in
              if np.isclose 1 (np.sum (np.mul h (np.diff e))) (1 # 10)
              then fit_features_with histogram self' X cols'
              else (self', Raise AssertionError)
          | _, _ => (self, Raise AttributeError)
          end
      end
  end.

Definition fit_with (histogram : list Q -> Z -> result (list Q * list Q))
           (self : HBOS) (X : matrix) : HBOS * result unit :=
  match check_array X with
  | Raise e => (self, Raise e)
  | Ok X =>
      let self := _set_n_classes self in
      let n_features := n_cols X in
      match np.zeros (n_bins self) n_features with
      | Raise e => (self, Raise e)
      | Ok z =>
          let self := set_hist self z in
          match np.zeros (n_bins self + 1) n_features with
          | Raise e => (self, Raise e)
          | Ok z' =>
              let self := set_bin_edges self z' in
              match fit_features_with histogram self X (seq 0 n_features) with
              | (self, Raise e) => (self, Raise e)
              | (self, Ok _) =>
                  match _calculate_outlier_scores self X with
                  | Raise e => (self, Raise e)
                  | Ok outlier_scores =>
                      let self :=
                        set_decision_scores self (invert_sum outlier_scores) in
                      (_process_decision_scores self, Ok tt)
                  end
              end
          end
      end
  end.

(** * Notions used by the properties *)

Local Open Scope Q_scope.

(** ** Histograms *)

(** Number of elements of [a] that satisfy [p]. *)
Definition count (p : Q -> bool) (a : list Q) : nat := length (filter p a).

(** [n.sum()] of an array of counts. *)
Definition total (n : list nat) : nat := fold_right Nat.add 0%nat n.

(** What [np.histogram] returns for [n] bins: [n + 1] strictly increasing
    edges and [n] densities, none of them negative. *)
Record wf_feature (n : Z) (edges hist : list Q) : Prop := {
  wf_edges_length : Z.of_nat (length edges) = (n + 1)%Z;
  wf_hist_length : Z.of_nat (length hist) = n;
  wf_edges_sorted : StronglySorted Qlt edges;
  wf_hist_nonneg : Forall (fun d => 0 <= d) hist
}.

(** ** The score of one value on one dimension *)

(** [out_score_i] of the source: the scores of the bins of a dimension
    whose densities are [h]. *)
Definition out_score (self : HBOS) (h : list Q) : list R :=
  map (fun d => np.log2 (Q2R (d + alpha self))) h.

(** The score the loop body gives the value [x] once [np.digitize] has
    located it among the edges [e]. *)
Definition feature_score (self : HBOS) (e h : list Q) (x : Q) : result R :=
  score_sample self e (out_score self h) x
               (Z.of_nat (np.searchsorted_left e x)).

(** The score of bin [b]: [log2(d_b + alpha)]. *)
Definition bin_score (self : HBOS) (h : list Q) (b : nat) : R :=
  np.log2 (Q2R (nth b h 0 + alpha self)).

(** ** The scores of a query matrix *)

(** The state a successful [fit] leaves: [H] and [E] are the columns of
    [hist_] and [bin_edges_]. *)
Record fitted_state (self : HBOS) (H E : list (list Q)) : Prop := {
  fs_bins : (1 <= n_bins self)%Z;
  fs_hist : hist_ self = Some H;
  fs_edges : bin_edges_ self = Some E;
  fs_length : length H = length E;
  fs_feature :
    forall i e h, nth_error E i = Some e -> nth_error H i = Some h ->
                  wf_feature (n_bins self) e h
}.

(** The score of [x] as a number, 0 standing for an exception. *)
Definition score_of (self : HBOS) (e h : list Q) (x : Q) : R :=
  match feature_score self e h x with
  | Ok r => r
  | Raise _ => 0%R
  end.

(** The array [_calculate_outlier_scores] returns on a fitted state. *)
Definition scores_of (self : HBOS) (H E : list (list Q)) (X : matrix)
  : list (list R) :=
  map (fun row =>
         map (fun i => score_of self (nth i E []) (nth i H []) (nth i row 0))
             (seq 0 (n_cols X)))
      X.

(** ** Fitted models and their queries *)

(** The ranges of [alpha] and [tol]. *)
Definition valid_params (self : HBOS) : Prop :=
  0 < alpha self < 1 /\ 0 < tol self < 1.

(** A fitted model is what a successful call of [fit] leaves of a
    detector whose [alpha] and [tol] the constructor accepts. *)
Definition fitted (self : HBOS) : Prop :=
  exists self0 X, valid_params self0 /\ fit self0 X = (self, Ok tt).

(** The detectors on which no call of [fit] has completed: a detector as
    the constructor returns it, and what a failed [fit] leaves of such a
    detector. *)
Inductive never_fitted : HBOS -> Prop :=
| constructed (n : Z) (a t c : Q) (self : HBOS) :
    __init__ n a t c = Ok self -> never_fitted self
| fit_failed (self self' : HBOS) (X : matrix) (e : exn) :
    never_fitted self -> fit self X = (self', Raise e) ->
    never_fitted self'.

(** The number of dimensions seen by [fit], the edges and the densities
    of dimension [i]. *)
Definition features (self : HBOS) : nat :=
  match bin_edges_ self with Some E => length E | None => 0 end.

Definition edges_of (self : HBOS) (i : nat) : list Q :=
  match bin_edges_ self with Some E => nth i E [] | None => [] end.

Definition hist_of (self : HBOS) (i : nat) : list Q :=
  match hist_ self with Some H => nth i H [] | None => [] end.

(** [X[j, i]]. *)
Definition value_at (X : matrix) (j i : nat) : option Q :=
  match nth_error X j with
  | Some row => nth_error row i
  | None => None
  end.

(** [outlier_scores[j, i]] as [_calculate_outlier_scores] returns it. *)
Definition contribution (self : HBOS) (X : matrix) (j i : nat) : option R :=
  match _calculate_outlier_scores self X with
  | Ok scores =>
      match nth_error scores j with
      | Some row => nth_error row i
      | None => None
      end
  | Raise _ => None
  end.


(** ** Worked examples *)

(** One dimension, training values 0, 0 and 1, two bins: the edges are
    0, 1/2 and 1, the densities 4/3 and 2/3. *)
Definition example_config : HBOS :=
  mkHBOS (1 # 10) 2 (1 # 2) (1 # 2) None None None None.

Definition example_training : matrix := [[0]; [0]; [1]].

Definition example_model : HBOS := fst (fit example_config example_training).

(** A single sample and a single bin. *)
Definition single_bin_config : HBOS :=
  mkHBOS (1 # 10) 1 (1 # 10) (1 # 2) None None None None.

Definition single_sample : matrix := [[7 # 1]].

(** Two dimensions. *)
Definition two_feature_training : matrix := [[0; 0]; [1; 2 # 1]].

Definition two_feature_model : HBOS :=
  fst (fit example_config two_feature_training).

(** No bin at all: the detector the constructor returns for [n_bins = 0],
    and what a call of [fit] leaves of it. *)
Definition zero_bins_config : HBOS :=
  mkHBOS (1 # 10) 0 (1 # 10) (1 # 2) None None None None.

Definition zero_bins_model : HBOS := fst (fit zero_bins_config single_sample).

(** The fitted example after the assignment [n_bins = 0]. *)
Definition reconfigured_model : HBOS := set_n_bins example_model 0.






(** A single bin over a single sample. *)
Definition single_bin_model : HBOS :=
  fst (fit single_bin_config single_sample).

(** A training value on the inner edge 1/2 of two bins. *)
Definition edge_training : matrix := [[0]; [1 # 2]; [1]].

Definition edge_model : HBOS := fst (fit example_config edge_training).

(** A routine that raises IndexError on every column, as [np.histogram]
    does on a column whose range is empty even after the widening. *)
Definition failing_histogram (a : list Q) (bins : Z)
  : result (list Q * list Q) :=
  Raise IndexError.

(** What a call of [fit] in which [np.histogram] fails leaves of a
    detector fresh from the constructor, and of the fitted example. *)
Definition interrupted_model : HBOS :=
  fst (fit_with failing_histogram single_bin_config single_sample).

Definition interrupted_refit : HBOS :=
  fst (fit_with failing_histogram example_model single_sample).

(** A detector constructed with a negative number of bins. *)
Definition negative_bins_config : HBOS :=
  mkHBOS (1 # 10) (-3) (1 # 10) (1 # 2) None None None None.

(** Columns of doubles: two adjacent doubles, 1 and [1 + 2^-52]; a
    constant column of magnitude [1e17], above [2^53]; a column whose
    range, [1e20], is wide enough for its densities to vanish next to
    [alpha = 0.1]. *)
Definition adjacent_doubles : list float :=
  [1%float; 0x1.0000000000001p+0%float].


Definition wide_column : list float := [0%float; 1e20%float; 1e20%float].

(** Evaluation of a closed comparison. *)
Ltac qcompute := vm_compute; first [reflexivity | discriminate | lia].

(** * Properties *)

(** ** Results *)

Lemma mapM_ext_ok (A B : Type) (f : A -> result B) (g : A -> B) (l : list A) :
  (forall a, In a l -> f a = Ok (g a)) -> mapM f l = Ok (map g l).
Proof.
  induction l as [|a l IH]; intros Hf; simpl.
  - reflexivity.
  - rewrite (Hf a) by (left; reflexivity). simpl.
    rewrite IH by (intros; apply Hf; right; assumption).
    reflexivity.
Qed.

Lemma mapM_raise (A B : Type) (f : A -> result B) (g : A -> B)
      (l1 l2 : list A) (a : A) (e : exn) :
  (forall x, In x l1 -> f x = Ok (g x)) -> f a = Raise e ->
  mapM f (l1 ++ a :: l2) = Raise e.
Proof.
  induction l1 as [|x l1 IH]; intros Hf Ha; simpl.
  - rewrite Ha. reflexivity.
  - rewrite (Hf x) by (left; reflexivity). simpl.
    rewrite IH; [reflexivity| |assumption].
    intros; apply Hf; right; assumption.
Qed.

(** ** Comparisons on rationals *)

Lemma Qlt_bool_iff (x y : Q) : Qlt_bool x y = true <-> x < y.
Proof.
  unfold Qlt_bool. rewrite negb_true_iff.
  destruct (Qle_bool y x) eqn:E.
  - apply Qle_bool_iff in E. split; [discriminate|intros H; exfalso; lra].
  - split; [intros _|reflexivity].
    destruct (Qlt_le_dec x y) as [H|H]; [assumption|].
    apply Qle_bool_iff in H. congruence.
Qed.

Lemma Qlt_bool_false_iff (x y : Q) : Qlt_bool x y = false <-> y <= x.
Proof.
  unfold Qlt_bool. rewrite negb_false_iff. apply Qle_bool_iff.
Qed.

Lemma Qle_bool_false_iff (x y : Q) : Qle_bool x y = false <-> y < x.
Proof.
  rewrite <- Qlt_bool_iff. unfold Qlt_bool.
  destruct (Qle_bool x y); simpl; intuition congruence.
Qed.

(** ** Indexing *)

Lemma np_get_nth (A : Type) (a : list A) (k : nat) (d : A) :
  (k < length a)%nat -> np.get a (Z.of_nat k) = Ok (nth k a d).
Proof.
  intros Hk. unfold np.get.
  destruct (Z.of_nat k <? 0)%Z eqn:E; [apply Z.ltb_lt in E; lia|].
  replace ((0 <=? Z.of_nat k) && (Z.of_nat k <? Z.of_nat (length a)))%Z
    with true
    by (symmetry; apply andb_true_iff; split;
        [apply Z.leb_le|apply Z.ltb_lt]; lia).
  rewrite Nat2Z.id, (nth_error_nth' a d Hk). reflexivity.
Qed.

Lemma np_get_from_end (A : Type) (a : list A) (k : nat) (d : A) :
  (1 <= k <= length a)%nat ->
  np.get a (- Z.of_nat k) = Ok (nth (length a - k) a d).
Proof.
  intros Hk. unfold np.get.
  destruct (- Z.of_nat k <? 0)%Z eqn:E; [|apply Z.ltb_ge in E; lia].
  replace (- Z.of_nat k + Z.of_nat (length a))%Z
    with (Z.of_nat (length a - k)) by lia.
  replace ((0 <=? Z.of_nat (length a - k))
           && (Z.of_nat (length a - k) <? Z.of_nat (length a)))%Z
    with true
    by (symmetry; apply andb_true_iff; split;
        [apply Z.leb_le|apply Z.ltb_lt]; lia).
  rewrite Nat2Z.id, (nth_error_nth' a d) by lia. reflexivity.
Qed.

(** ** Evenly spaced edges *)

Section Linspace.

Variables (start step stop : Q).

Local Abbreviation ramp a m :=
  (map (fun k => inject_Z (Z.of_nat k) * step + start) (seq a m) ++ [stop])
  (only parsing).

Hypothesis step_pos : 0 < step.

Lemma inject_S (a : nat) :
  inject_Z (Z.of_nat (S a)) == inject_Z (Z.of_nat a) + 1.
Proof.
  rewrite Nat2Z.inj_succ. unfold Z.succ. rewrite inject_Z_plus. reflexivity.
Qed.

Lemma ramp_sorted (a m : nat) :
  inject_Z (Z.of_nat (a + m)) * step + start == stop ->
  Sorted Qlt (ramp a m).
Proof.
  revert a. induction m as [|m IH]; intros a Hlast.
  - repeat constructor.
  - cbn [map seq app]. constructor.
    + apply IH. rewrite <- Hlast.
      replace (S a + m)%nat with (a + S m)%nat by lia. reflexivity.
    + destruct m as [|m]; cbn [map seq app]; constructor.
      * rewrite <- Hlast.
        replace (a + 1)%nat with (S a) by lia.
        rewrite inject_S. lra.
      * rewrite inject_S. lra.
Qed.

Lemma ramp_diff (a m : nat) :
  inject_Z (Z.of_nat (a + m)) * step + start == stop ->
  Forall (fun w => w == step) (np.diff (ramp a m)).
Proof.
  revert a. induction m as [|m IH]; intros a Hlast.
  - constructor.
  - assert (Htl : Forall (fun w => w == step) (np.diff (ramp (S a) m))).
    { apply IH. rewrite <- Hlast.
      replace (S a + m)%nat with (a + S m)%nat by lia. reflexivity. }
    destruct m as [|m]; cbn [map seq app np.diff] in *.
    + constructor; [|constructor].
      rewrite <- Hlast. replace (a + 1)%nat with (S a) by lia.
      rewrite inject_S. ring.
    + constructor; [|exact Htl].
      rewrite inject_S. ring.
Qed.

End Linspace.

Lemma linspace_length (start stop : Q) (n : nat) :
  length (np.linspace start stop n) = S n.
Proof.
  unfold np.linspace. rewrite length_app, length_map, length_seq. simpl. lia.
Qed.

Lemma linspace_step (start stop : Q) (n : nat) :
  (1 <= n)%nat ->
  inject_Z (Z.of_nat (0 + n)) * ((stop - start) / inject_Z (Z.of_nat n)) + start
  == stop.
Proof.
  intros Hn. simpl.
  assert (0 < inject_Z (Z.of_nat n)).
  { replace 0 with (inject_Z 0) by reflexivity. rewrite <- Zlt_Qlt. lia. }
  field. lra.
Qed.

Lemma step_positive (start stop : Q) (n : nat) :
  (1 <= n)%nat -> start < stop -> 0 < (stop - start) / inject_Z (Z.of_nat n).
Proof.
  intros Hn Hlt.
  assert (0 < inject_Z (Z.of_nat n)).
  { replace 0 with (inject_Z 0) by reflexivity. rewrite <- Zlt_Qlt. lia. }
  apply Qlt_shift_div_l; lra.
Qed.

Lemma linspace_sorted (start stop : Q) (n : nat) :
  (1 <= n)%nat -> start < stop -> StronglySorted Qlt (np.linspace start stop n).
Proof.
  intros Hn Hlt. apply Sorted_StronglySorted.
  - intros x y z. apply Qlt_trans.
  - apply ramp_sorted.
    + apply step_positive; assumption.
    + apply linspace_step; assumption.
Qed.

Lemma linspace_diff (start stop : Q) (n : nat) :
  (1 <= n)%nat ->
  Forall (fun w => w == (stop - start) / inject_Z (Z.of_nat n))
         (np.diff (np.linspace start stop n)).
Proof.
  intros Hn. apply ramp_diff, linspace_step; assumption.
Qed.

Lemma linspace_first (start stop : Q) (n : nat) :
  (1 <= n)%nat -> nth 0 (np.linspace start stop n) 0 == start.
Proof.
  intros Hn. unfold np.linspace. destruct n as [|n]; [lia|].
  simpl. ring.
Qed.

Lemma linspace_last (start stop : Q) (n : nat) :
  nth n (np.linspace start stop n) 0 = stop.
Proof.
  unfold np.linspace.
  rewrite app_nth2; rewrite length_map, length_seq; [|lia].
  rewrite Nat.sub_diag. reflexivity.
Qed.

(** ** Counting the data points of a histogram *)

Lemma count_split (p q r : Q -> bool) (a : list Q) :
  (forall x, In x a -> r x = xorb (p x) (q x)) ->
  (forall x, In x a -> p x && q x = false) ->
  (count p a + count q a = count r a)%nat.
Proof.
  unfold count. induction a as [|x a IH]; intros Hr Hpq; simpl.
  - reflexivity.
  - assert (IH' := IH (fun y Hy => Hr y (or_intror Hy))
                      (fun y Hy => Hpq y (or_intror Hy))).
    specialize (Hr x (or_introl eq_refl)).
    specialize (Hpq x (or_introl eq_refl)).
    rewrite Hr. destruct (p x), (q x); simpl in *; try discriminate; lia.
Qed.

Lemma count_all (p : Q -> bool) (a : list Q) :
  (forall x, In x a -> p x = true) -> count p a = length a.
Proof.
  unfold count. induction a as [|x a IH]; intros Hp; simpl.
  - reflexivity.
  - rewrite (Hp x) by (left; reflexivity). simpl.
    rewrite IH by (intros; apply Hp; right; assumption). reflexivity.
Qed.

Lemma bin_counts_length (a edges : list Q) :
  length (np.bin_counts a edges) = length (np.diff edges).
Proof.
  induction edges as [|lo [|hi rest] IH]; simpl in *; auto.
Qed.

Lemma diff_length (edges : list Q) :
  length (np.diff edges) = (length edges - 1)%nat.
Proof.
  induction edges as [|lo [|hi rest] IH]; simpl in *; auto.
  rewrite IH. lia.
Qed.

Lemma last_cons (A : Type) (l : list A) (x d : A) :
  last (x :: l) d = last l x.
Proof.
  revert x d. induction l as [|y l IH]; intros x d.
  - reflexivity.
  - change (last (x :: y :: l) d) with (last (y :: l) d).
    rewrite IH. symmetry. apply IH.
Qed.

Lemma last_In (A : Type) (l : list A) (x : A) : In (last l x) (x :: l).
Proof.
  revert x. induction l as [|y l IH]; intros x.
  - left; reflexivity.
  - right. rewrite last_cons. apply IH.
Qed.

(** The bins partition the interval from the first to the last edge. *)
Lemma bin_counts_total (a rest : list Q) (lo hi : Q) :
  StronglySorted Qlt (lo :: hi :: rest) ->
  total (np.bin_counts a (lo :: hi :: rest))
  = count (fun x => Qle_bool lo x && Qle_bool x (last rest hi)) a.
Proof.
  revert lo hi. induction rest as [|hi2 rest IH]; intros lo hi Hs.
  - unfold total, count. cbn [np.bin_counts fold_right last].
    apply Nat.add_0_r.
  - change (total (np.bin_counts a (lo :: hi :: hi2 :: rest)))
      with (count (fun x => Qle_bool lo x && Qlt_bool x hi) a
            + total (np.bin_counts a (hi :: hi2 :: rest)))%nat.
    inversion Hs as [|? ? Hs' Hlo]; subst.
    rewrite (IH hi hi2 Hs').
    rewrite (last_cons rest hi2 hi).
    assert (Hh : hi <= last rest hi2).
    { inversion Hs' as [|? ? _ Hhi]; subst.
      rewrite Forall_forall in Hhi. apply Qlt_le_weak, Hhi, last_In. }
    assert (Hl : lo < hi).
    { inversion Hlo; assumption. }
    apply count_split; intros x _.
    + destruct (Qle_bool lo x) eqn:E1, (Qlt_bool x hi) eqn:E2,
               (Qle_bool hi x) eqn:E3, (Qle_bool x (last rest hi2)) eqn:E4;
        simpl; try reflexivity; exfalso;
        repeat match goal with
               | H : Qle_bool _ _ = true |- _ => apply Qle_bool_iff in H
               | H : Qle_bool _ _ = false |- _ => apply Qle_bool_false_iff in H
               | H : Qlt_bool _ _ = true |- _ => apply Qlt_bool_iff in H
               | H : Qlt_bool _ _ = false |- _ => apply Qlt_bool_false_iff in H
               end; lra.
    + destruct (Qle_bool lo x) eqn:E1, (Qlt_bool x hi) eqn:E2,
               (Qle_bool hi x) eqn:E3, (Qle_bool x (last rest hi2)) eqn:E4;
        simpl; try reflexivity; exfalso;
        repeat match goal with
               | H : Qle_bool _ _ = true |- _ => apply Qle_bool_iff in H
               | H : Qle_bool _ _ = false |- _ => apply Qle_bool_false_iff in H
               | H : Qlt_bool _ _ = true |- _ => apply Qlt_bool_iff in H
               | H : Qlt_bool _ _ = false |- _ => apply Qlt_bool_false_iff in H
               end; lra.
Qed.

(** ** The range of the data *)

Lemma fold_min_le (a : list Q) (x : Q) :
  fold_left Qmin a x <= x /\ forall y, In y a -> fold_left Qmin a x <= y.
Proof.
  revert x. induction a as [|z a IH]; intros x; simpl.
  - split; [lra|contradiction].
  - destruct (IH (Qmin x z)) as [H1 H2].
    pose proof (Q.le_min_l x z). pose proof (Q.le_min_r x z).
    split; [lra|]. intros y [->|Hy]; [lra|auto].
Qed.

Lemma fold_max_ge (a : list Q) (x : Q) :
  x <= fold_left Qmax a x /\ forall y, In y a -> y <= fold_left Qmax a x.
Proof.
  revert x. induction a as [|z a IH]; intros x; simpl.
  - split; [lra|contradiction].
  - destruct (IH (Qmax x z)) as [H1 H2].
    pose proof (Q.le_max_l x z). pose proof (Q.le_max_r x z).
    split; [lra|]. intros y [->|Hy]; [lra|auto].
Qed.



Lemma outer_edges_spec (a : list Q) :
  a <> [] ->
  fst (np.outer_edges a) < snd (np.outer_edges a) /\
  forall y, In y a -> fst (np.outer_edges a) <= y <= snd (np.outer_edges a).
Proof.
  destruct a as [|x a]; [congruence|intros _].
  unfold np.outer_edges.
  destruct (fold_min_le a x) as [Hm1 Hm2].
  destruct (fold_max_ge a x) as [HM1 HM2].
  assert (Hin : forall y, In y (x :: a) ->
                          fold_left Qmin a x <= y <= fold_left Qmax a x).
  { intros y [<-|Hy]; split; auto. }
  destruct (Qeq_bool (fold_left Qmin a x) (fold_left Qmax a x)) eqn:E; simpl.
  - apply Qeq_bool_eq in E. split; [lra|].
    intros y Hy. specialize (Hin y Hy). lra.
  - apply Qeq_bool_neq in E. split; [|exact Hin].
    destruct (Qlt_le_dec (fold_left Qmin a x) (fold_left Qmax a x)) as [H|H];
      [assumption|].
    exfalso. apply E. apply Qle_antisym; lra.
Qed.


(** ** Densities *)

Lemma inject_nat_pos (n : nat) : (1 <= n)%nat -> 0 < inject_Z (Z.of_nat n).
Proof.
  intros Hn. replace 0 with (inject_Z 0) by reflexivity.
  rewrite <- Zlt_Qlt. lia.
Qed.

Lemma inject_nat_nonneg (n : nat) : 0 <= inject_Z (Z.of_nat n).
Proof.
  replace 0 with (inject_Z 0) by reflexivity. rewrite <- Zle_Qle. lia.
Qed.

Lemma density_length (n : list nat) (db : list Q) (t : nat) :
  length n = length db -> length (np.density n db t) = length db.
Proof.
  revert db. induction n as [|c n IH]; intros [|w db] H; simpl in *;
    try congruence.
  rewrite IH; congruence.
Qed.

Lemma density_nonneg (n : list nat) (db : list Q) (t : nat) :
  Forall (fun w => 0 < w) db -> Forall (fun d => 0 <= d) (np.density n db t).
Proof.
  revert db. induction n as [|c n IH]; intros [|w db] H; simpl;
    try constructor.
  - inversion H; subst. unfold Qdiv.
    repeat apply Qmult_le_0_compat.
    + apply inject_nat_nonneg.
    + apply Qinv_le_0_compat. lra.
    + apply Qinv_le_0_compat, inject_nat_nonneg.
  - inversion H; subst. apply IH. assumption.
Qed.

(** The mass of the bins: densities times widths add up to the share of
    the counted points. *)
Lemma density_mass (n : list nat) (db : list Q) (t : nat) :
  length n = length db -> Forall (fun w => 0 < w) db -> (1 <= t)%nat ->
  np.sum (np.mul (np.density n db t) db)
  == inject_Z (Z.of_nat (total n)) / inject_Z (Z.of_nat t).
Proof.
  intros Hlen Hdb Ht. pose proof (inject_nat_pos Ht) as Htq.
  revert db Hlen Hdb.
  induction n as [|c n IH]; intros [|w db] Hlen Hdb; simpl in *;
    try congruence.
  - field. lra.
  - inversion Hdb; subst.
    unfold np.sum in *. rewrite IH by (congruence || assumption).
    unfold total. rewrite Nat2Z.inj_add, inject_Z_plus. field. split; lra.
Qed.

(** ** What [np.histogram] returns *)

Lemma sorted_diff_pos (edges : list Q) :
  StronglySorted Qlt edges -> Forall (fun w => 0 < w) (np.diff edges).
Proof.
  induction edges as [|lo [|hi rest] IH]; intros Hs; simpl;
    try constructor.
  - inversion Hs as [|? ? _ Hlo]; subst. inversion Hlo; subst. lra.
  - apply IH. inversion Hs; assumption.
Qed.

Lemma histogram_edges (a : list Q) (bins : Z) :
  (1 <= bins)%Z ->
  exists h,
    np.histogram a bins
    = Ok (h, np.linspace (fst (np.outer_edges a)) (snd (np.outer_edges a))
                         (Z.to_nat bins))
    /\ h = np.density
             (np.bin_counts a (np.linspace (fst (np.outer_edges a))
                                           (snd (np.outer_edges a))
                                           (Z.to_nat bins)))
             (np.diff (np.linspace (fst (np.outer_edges a))
                                   (snd (np.outer_edges a))
                                   (Z.to_nat bins)))
             (total (np.bin_counts a (np.linspace (fst (np.outer_edges a))
                                                  (snd (np.outer_edges a))
                                                  (Z.to_nat bins)))).
Proof.
  intros Hb. unfold np.histogram.
  destruct (bins <? 1)%Z eqn:E; [apply Z.ltb_lt in E; lia|].
  destruct (np.outer_edges a) as [first_edge last_edge]. simpl.
  eexists; split; reflexivity.
Qed.

Lemma histogram_total (a : list Q) (n : nat) :
  (1 <= n)%nat -> a <> [] ->
  total (np.bin_counts a (np.linspace (fst (np.outer_edges a))
                                      (snd (np.outer_edges a)) n))
  = length a.
Proof.
  intros Hn Ha. destruct (outer_edges_spec Ha) as [Hlt Hin].
  set (first_edge := fst (np.outer_edges a)) in *.
  set (last_edge := snd (np.outer_edges a)) in *.
  pose proof (linspace_sorted Hn Hlt) as Hs.
  pose proof (linspace_length first_edge last_edge n) as Hlen.
  pose proof (linspace_first first_edge last_edge Hn) as Hfirst.
  assert (Hlast : forall d, last (np.linspace first_edge last_edge n) d
                            = last_edge).
  { intros d. unfold np.linspace. apply last_last. }
  destruct (np.linspace first_edge last_edge n) as [|lo [|hi rest]];
    simpl in Hlen; try lia.
  rewrite (bin_counts_total a Hs).
  specialize (Hlast 0). rewrite !last_cons in Hlast. rewrite Hlast.
  simpl in Hfirst.
  apply count_all. intros x Hx. specialize (Hin x Hx).
  apply andb_true_iff; split; apply Qle_bool_iff; lra.
Qed.

Lemma histogram_ok (a : list Q) (bins : Z) :
  (1 <= bins)%Z -> a <> [] ->
  exists h e,
    np.histogram a bins = Ok (h, e)
    /\ e = np.linspace (fst (np.outer_edges a)) (snd (np.outer_edges a))
                       (Z.to_nat bins)
    /\ wf_feature bins e h
    /\ np.sum (np.mul h (np.diff e)) == 1.
Proof.
  intros Hb Ha. destruct (histogram_edges a Hb) as [h [Hh Hd]].
  destruct (outer_edges_spec Ha) as [Hlt _].
  assert (Hn : (1 <= Z.to_nat bins)%nat) by lia.
  pose proof (linspace_sorted Hn Hlt) as Hs.
  pose proof (sorted_diff_pos Hs) as Hpos.
  exists h, (np.linspace (fst (np.outer_edges a)) (snd (np.outer_edges a))
                         (Z.to_nat bins)).
  split; [exact Hh|]. split; [reflexivity|]. split.
  - split.
    + rewrite linspace_length. lia.
    + rewrite Hd, density_length; rewrite ?bin_counts_length; auto.
      rewrite diff_length, linspace_length. lia.
    + exact Hs.
    + rewrite Hd. apply density_nonneg. exact Hpos.
  - rewrite Hd, density_mass.
    + rewrite histogram_total by assumption.
      assert (0 < inject_Z (Z.of_nat (length a))).
      { apply inject_nat_pos. destruct a; simpl; [congruence|lia]. }
      field. lra.
    + apply bin_counts_length.
    + exact Hpos.
    + rewrite histogram_total by assumption.
      destruct a; simpl; [congruence|lia].
Qed.

(** ** Locating a value among the edges *)

Lemma searchsorted_le_length (e : list Q) (x : Q) :
  (np.searchsorted_left e x <= length e)%nat.
Proof.
  induction e as [|y e IH]; simpl; [lia|].
  destruct (Qlt_bool y x); lia.
Qed.

(** The edges before the index found are below the value, the edge at the
    index is not. *)
Lemma searchsorted_below (e : list Q) (x : Q) (i : nat) :
  (i < np.searchsorted_left e x)%nat -> nth i e 0 < x.
Proof.
  revert i. induction e as [|y e IH]; intros i Hi; simpl in *; [lia|].
  destruct (Qlt_bool y x) eqn:E; [|lia].
  apply Qlt_bool_iff in E. destruct i as [|i]; [assumption|].
  apply IH. lia.
Qed.

Lemma searchsorted_at (e : list Q) (x : Q) :
  (np.searchsorted_left e x < length e)%nat ->
  x <= nth (np.searchsorted_left e x) e 0.
Proof.
  induction e as [|y e IH]; intros Hk; simpl in *; [lia|].
  destruct (Qlt_bool y x) eqn:E.
  - apply IH. lia.
  - apply Qlt_bool_false_iff in E. assumption.
Qed.

Lemma searchsorted_first (e : list Q) (x : Q) :
  x <= nth 0 e 0 -> e <> [] -> np.searchsorted_left e x = 0%nat.
Proof.
  destruct e as [|y e]; [congruence|]. simpl. intros Hx _.
  apply Qlt_bool_false_iff in Hx. rewrite Hx. reflexivity.
Qed.

Lemma searchsorted_inside (e : list Q) (x : Q) (b : nat) :
  StronglySorted Qlt e -> (S b < length e)%nat ->
  nth b e 0 < x -> x <= nth (S b) e 0 ->
  np.searchsorted_left e x = S b.
Proof.
  revert b. induction e as [|y e IH]; intros b Hs Hb Hlo Hhi;
    simpl in Hb; [lia|].
  inversion Hs as [|? ? Hs' Hy]; subst.
  destruct b as [|b].
  - simpl in Hlo. cbn [np.searchsorted_left].
    apply Qlt_bool_iff in Hlo. rewrite Hlo. f_equal.
    apply searchsorted_first; [exact Hhi|].
    destruct e; simpl in *; [lia|congruence].
  - cbn [nth] in Hlo, Hhi. cbn [np.searchsorted_left].
    assert (Hyx : y < x).
    { rewrite Forall_forall in Hy.
      assert (y < nth b e 0) by (apply Hy, nth_In; lia). lra. }
    apply Qlt_bool_iff in Hyx. rewrite Hyx. f_equal.
    apply IH; auto. lia.
Qed.


Lemma sorted_nondecreasing (e : list Q) :
  StronglySorted Qlt e -> np.nondecreasing e = true.
Proof.
  induction e as [|x [|y e] IH]; intros Hs; simpl; auto.
  inversion Hs as [|? ? Hs' Hx]; subst. inversion Hx; subst.
  apply andb_true_iff; split; [apply Qle_bool_iff; lra|].
  apply IH. assumption.
Qed.

Lemma digitize_sorted (xs e : list Q) :
  StronglySorted Qlt e ->
  np.digitize xs e
  = Ok (map (fun v => Z.of_nat (np.searchsorted_left e v)) xs).
Proof.
  intros Hs. unfold np.digitize, np.monotonicity.
  rewrite (sorted_nondecreasing Hs). reflexivity.
Qed.

(** ** The minimum of the bin scores *)

Lemma fold_Rmin_le (l : list R) (x : R) :
  (fold_left Rmin l x <= x)%R
  /\ forall y, In y l -> (fold_left Rmin l x <= y)%R.
Proof.
  revert x. induction l as [|z l IH]; intros x; simpl.
  - split; [lra|contradiction].
  - destruct (IH (Rmin x z)) as [H1 H2].
    pose proof (Rmin_l x z). pose proof (Rmin_r x z).
    split; [lra|]. intros y [->|Hy]; [lra|auto].
Qed.

Lemma fold_Rmin_In (l : list R) (x : R) : In (fold_left Rmin l x) (x :: l).
Proof.
  revert x. induction l as [|z l IH]; intros x; simpl.
  - left; reflexivity.
  - destruct (IH (Rmin x z)) as [H|H].
    + rewrite <- H. unfold Rmin. destruct (Rle_dec x z); auto.
    + right; right; assumption.
Qed.

Lemma np_min_spec (l : list R) :
  l <> [] ->
  exists m, np.min l = Ok m /\ In m l /\ forall y, In y l -> (m <= y)%R.
Proof.
  destruct l as [|x l]; [congruence|intros _].
  exists (fold_left Rmin l x). split; [reflexivity|]. split.
  - apply fold_Rmin_In.
  - destruct (fold_Rmin_le l x) as [H1 H2].
    intros y [<-|Hy]; auto.
Qed.

(** ** The score of one value on one dimension *)

Lemma out_score_length (self : HBOS) (h : list Q) :
  length (out_score self h) = length h.
Proof. apply length_map. Qed.

Lemma out_score_nth (self : HBOS) (h : list Q) (b : nat) :
  (b < length h)%nat -> nth b (out_score self h) 0%R = bin_score self h b.
Proof.
  intros Hb. unfold out_score, bin_score.
  rewrite (nth_indep _ 0%R (np.log2 (Q2R (0 + alpha self))))
    by (rewrite length_map; assumption).
  apply (map_nth (fun d => np.log2 (Q2R (d + alpha self)))).
Qed.

Lemma out_score_In (self : HBOS) (h : list Q) (r : R) :
  In r (out_score self h) ->
  exists b, (b < length h)%nat /\ r = bin_score self h b.
Proof.
  intros Hr. destruct (In_nth _ _ 0%R Hr) as [b [Hb Hn]].
  rewrite out_score_length in Hb. exists b. split; [assumption|].
  rewrite <- Hn. apply out_score_nth. assumption.
Qed.

Section Feature.

Variables (self : HBOS) (e h : list Q).
Hypothesis bins_pos : (1 <= n_bins self)%Z.
Hypothesis wf_eh : wf_feature (n_bins self) e h.

Local Abbreviation n := (length h) (only parsing).

Lemma feature_lengths : length e = S n /\ (1 <= n)%nat.
Proof.
  destruct wf_eh as [He Hh _ _]. lia.
Qed.

Lemma n_bins_n : n_bins self = Z.of_nat n.
Proof. destruct wf_eh as [_ Hh _ _]. lia. Qed.

(** [bin_inds[j] == 0]: the value is not above the first edge. *)
Lemma feature_score_low (x : Q) :
  np.searchsorted_left e x = 0%nat ->
  feature_score self e h x
  = if Qle_bool (nth 0 e 0 - x) ((nth 1 e 0 - nth 0 e 0) * tol self)
    then Ok (bin_score self h 0)
    else np.min (out_score self h).
Proof.
  intros Hk. destruct feature_lengths as [He Hn].
  unfold feature_score, score_sample. rewrite Hk. cbn [Z.of_nat Z.eqb].
  change 0%Z with (Z.of_nat 0). change 1%Z with (Z.of_nat 1).
  rewrite (np_get_nth e 0%Q) by lia. cbn [bind].
  rewrite (np_get_nth e 0%Q) by lia. cbn [bind].
  destruct (Qle_bool _ _); [|reflexivity].
  rewrite (np_get_nth _ 0%R) by (rewrite out_score_length; lia).
  rewrite out_score_nth by lia. reflexivity.
Qed.

(** [bin_inds[j] == n_bins + 1]: the value is above the last edge. *)
Lemma feature_score_high (x : Q) :
  np.searchsorted_left e x = S n ->
  feature_score self e h x
  = if Qle_bool (x - nth n e 0) ((nth n e 0 - nth (n - 1) e 0) * tol self)
    then Ok (bin_score self h (n - 1))
    else np.min (out_score self h).
Proof.
  intros Hk. destruct feature_lengths as [He Hn].
  unfold feature_score, score_sample. rewrite Hk.
  destruct (Z.of_nat (S n) =? 0)%Z eqn:E0; [apply Z.eqb_eq in E0; lia|].
  rewrite n_bins_n.
  replace (Z.of_nat (S n) =? Z.of_nat n + 1)%Z with true
    by (symmetry; apply Z.eqb_eq; lia).
  change (-1)%Z with (- Z.of_nat 1)%Z. change (-2)%Z with (- Z.of_nat 2)%Z.
  rewrite (np_get_from_end e 0%Q) by lia. cbn [bind].
  rewrite (np_get_from_end e 0%Q) by lia. cbn [bind].
  rewrite He.
  replace (S n - 1)%nat with n by lia.
  replace (S n - 2)%nat with (n - 1)%nat by lia.
  destruct (Qle_bool _ _); [|reflexivity].
  replace (Z.of_nat n - 1)%Z with (Z.of_nat (n - 1)) by lia.
  rewrite (np_get_nth _ 0%R) by (rewrite out_score_length; lia).
  rewrite out_score_nth by lia. reflexivity.
Qed.

(** Otherwise the value lies in bin [bin_inds[j] - 1]. *)
Lemma feature_score_bin (x : Q) (b : nat) :
  np.searchsorted_left e x = S b -> (b < n)%nat ->
  feature_score self e h x = Ok (bin_score self h b).
Proof.
  intros Hk Hb.
  unfold feature_score, score_sample. rewrite Hk.
  destruct (Z.of_nat (S b) =? 0)%Z eqn:E0; [apply Z.eqb_eq in E0; lia|].
  rewrite n_bins_n.
  destruct (Z.of_nat (S b) =? Z.of_nat n + 1)%Z eqn:E1;
    [apply Z.eqb_eq in E1; lia|].
  replace (Z.of_nat (S b) - 1)%Z with (Z.of_nat b) by lia.
  rewrite (np_get_nth _ 0%R) by (rewrite out_score_length; lia).
  rewrite out_score_nth by lia. reflexivity.
Qed.

(** Every value receives the score of one of the bins. *)
Lemma feature_score_total (x : Q) :
  exists b, (b < n)%nat /\ feature_score self e h x = Ok (bin_score self h b).
Proof.
  destruct feature_lengths as [He Hn].
  assert (Hmin : exists b, (b < n)%nat
                           /\ np.min (out_score self h)
                              = Ok (bin_score self h b)).
  { destruct (@np_min_spec (out_score self h)) as [m [Hm [Hin _]]].
    - intros E. apply (f_equal (@length R)) in E.
      rewrite out_score_length in E. simpl in E. lia.
    - destruct (out_score_In _ _ _ Hin) as [b [Hb ->]].
      exists b. split; assumption. }
  pose proof (searchsorted_le_length e x) as Hle. rewrite He in Hle.
  destruct (np.searchsorted_left e x) as [|k] eqn:Hk.
  - rewrite (feature_score_low _ Hk).
    destruct (Qle_bool _ _); [exists 0%nat; split; [lia|reflexivity]|].
    exact Hmin.
  - destruct (Nat.eq_dec k n) as [->|Hkn].
    + rewrite (feature_score_high _ Hk).
      destruct (Qle_bool _ _);
        [exists (n - 1)%nat; split; [lia|reflexivity]|].
      exact Hmin.
    + exists k. split; [lia|]. apply feature_score_bin; [assumption|lia].
Qed.

End Feature.

(** ** The scores of a query matrix *)

Lemma map_nth_in (A B : Type) (f : A -> B) (l : list A) (j : nat)
      (d : A) (d' : B) :
  (j < length l)%nat -> nth j (map f l) d' = f (nth j l d).
Proof.
  intros Hj. rewrite (nth_indep _ d' (f d)) by (rewrite length_map; exact Hj).
  apply map_nth.
Qed.

Lemma map_seq_nth (A : Type) (l : list A) (d : A) :
  map (fun j => nth j l d) (seq 0 (length l)) = l.
Proof.
  apply (nth_ext _ _ d d).
  - rewrite length_map, length_seq. reflexivity.
  - intros j Hj. rewrite length_map, length_seq in Hj.
    rewrite (map_nth_in _ _ 0%nat) by (rewrite length_seq; exact Hj).
    rewrite seq_nth by exact Hj. reflexivity.
Qed.

Lemma mapM_combine_map (A B C : Type) (f : A -> B) (k : A -> B -> result C)
      (g : A -> C) (l : list A) :
  (forall a, In a l -> k a (f a) = Ok (g a)) ->
  mapM (fun ab => k (fst ab) (snd ab)) (combine l (map f l)) = Ok (map g l).
Proof.
  induction l as [|a l IH]; intros Hk; simpl.
  - reflexivity.
  - rewrite (Hk a) by (left; reflexivity). simpl.
    rewrite IH by (intros; apply Hk; right; assumption). reflexivity.
Qed.

Section Scores.

Variables (self : HBOS) (H E : list (list Q)).
Hypothesis fs : fitted_state self H E.

Lemma fitted_feature (i : nat) :
  (i < length E)%nat -> wf_feature (n_bins self) (nth i E []) (nth i H []).
Proof.
  intros Hi. apply (fs_feature fs i); apply nth_error_nth'; auto.
  rewrite (fs_length fs). assumption.
Qed.

Lemma feature_score_of (i : nat) (x : Q) :
  (i < length E)%nat ->
  feature_score self (nth i E []) (nth i H []) x
  = Ok (score_of self (nth i E []) (nth i H []) x).
Proof.
  intros Hi. unfold score_of.
  destruct (@feature_score_total self _ _ (fs_bins fs)
                                 (fitted_feature Hi) x)
    as [b [_ ->]].
  reflexivity.
Qed.

Lemma score_feature_ok (X : matrix) (i : nat) :
  (i < length E)%nat ->
  score_feature self X i
  = Ok (map (score_of self (nth i E []) (nth i H [])) (column X i)).
Proof.
  intros Hi. unfold score_feature.
  rewrite (fs_edges fs), (fs_hist fs). cbn [get_attr bind].
  unfold get_col.
  rewrite (nth_error_nth' E [] Hi). cbn [bind].
  rewrite (digitize_sorted _ (wf_edges_sorted (fitted_feature Hi))).
  cbn [bind].
  rewrite (nth_error_nth' H []) by (rewrite (fs_length fs); exact Hi).
  cbn [bind].
  apply (mapM_combine_map
           (fun v => Z.of_nat (np.searchsorted_left (nth i E []) v))
           (fun x b => score_sample self (nth i E [])
                         (map (fun d => np.log2 (Q2R (d + alpha self)))
                              (nth i H [])) x b)).
  intros x _. apply (feature_score_of x Hi).
Qed.

Lemma calculate_ok (X : matrix) :
  (n_cols X <= length E)%nat ->
  _calculate_outlier_scores self X = Ok (scores_of self H E X).
Proof.
  intros Hc. unfold _calculate_outlier_scores.
  rewrite (mapM_ext_ok
             (score_feature self X)
             (fun i => map (score_of self (nth i E []) (nth i H []))
                           (column X i))).
  2:{ intros i Hi. apply in_seq in Hi. apply score_feature_ok. lia. }
  cbn [bind]. f_equal. unfold scores_of, n_rows.
  rewrite <- (map_seq_nth X []) at 3. rewrite map_map.
  apply map_ext_in. intros j Hj. apply in_seq in Hj.
  unfold row_of. rewrite map_map. apply map_ext_in. intros i Hi.
  unfold column.
  rewrite (map_nth_in _ _ 0%Q) by (rewrite length_map; lia).
  f_equal. apply (map_nth_in (fun row : list Q => nth i row 0) X [] 0). lia.
Qed.

Lemma decision_function_ok (X : matrix) :
  check_array X = Ok X -> (n_cols X <= length E)%nat ->
  decision_function self X = Ok (invert_sum (scores_of self H E X)).
Proof.
  intros HX Hc. unfold decision_function, check_is_fitted.
  rewrite (fs_hist fs), (fs_edges fs). cbn [bind].
  rewrite HX. cbn [bind]. rewrite (calculate_ok X Hc). reflexivity.
Qed.

(** The entry of sample [j] and dimension [i]. *)
Lemma scores_entry (X : matrix) (j i : nat) (row : list Q) (x : Q) :
  nth_error X j = Some row -> nth_error row i = Some x ->
  (i < n_cols X)%nat ->
  exists srow, nth_error (scores_of self H E X) j = Some srow
               /\ nth_error srow i
                  = Some (score_of self (nth i E []) (nth i H []) x).
Proof.
  intros Hrow Hx Hi. unfold scores_of.
  rewrite nth_error_map, Hrow. cbn [option_map].
  eexists; split; [reflexivity|].
  rewrite nth_error_map, nth_error_seq.
  destruct (i <? n_cols X)%nat eqn:E1; [|apply Nat.ltb_ge in E1; lia].
  cbn [option_map Nat.add]. rewrite (nth_error_nth _ _ 0 Hx). reflexivity.
Qed.

End Scores.

(** ** Fitting *)

Lemma set_col_length (a : list (list Q)) (i : nat) (c : list Q) :
  length (set_col a i c) = length a.
Proof.
  revert i. induction a as [|x a IH]; intros [|i]; simpl; auto.
Qed.

Lemma set_col_same (a : list (list Q)) (i : nat) (c : list Q) :
  (i < length a)%nat -> nth_error (set_col a i c) i = Some c.
Proof.
  revert i. induction a as [|x a IH]; intros [|i] Hi; simpl in *;
    try lia; auto.
  apply IH. lia.
Qed.

Lemma set_col_other (a : list (list Q)) (i j : nat) (c : list Q) :
  i <> j -> nth_error (set_col a i c) j = nth_error a j.
Proof.
  revert i j. induction a as [|x a IH]; intros [|i] [|j] Hij; simpl;
    try congruence; auto.
Qed.

Lemma isclose_one (s : Q) : s == 1 -> np.isclose 1 s (1 # 10) = true.
Proof.
  intros Hs. unfold np.isclose. rewrite Hs. reflexivity.
Qed.

Lemma check_array_shape (X : matrix) :
  check_array X = Ok X ->
  (1 <= n_rows X)%nat /\ (1 <= n_cols X)%nat
  /\ forall row, In row X -> length row = n_cols X.
Proof.
  unfold check_array. intros HX.
  destruct ((1 <=? n_rows X)%nat && (1 <=? n_cols X)%nat
            && forallb (fun row => (length row =? n_cols X)%nat) X) eqn:E;
    [|discriminate].
  apply andb_true_iff in E. destruct E as [E E3].
  apply andb_true_iff in E. destruct E as [E1 E2].
  apply Nat.leb_le in E1, E2. repeat split; try assumption.
  intros row Hrow. rewrite forallb_forall in E3.
  apply Nat.eqb_eq, E3, Hrow.
Qed.

Lemma check_array_returns (X X' : matrix) : check_array X = Ok X' -> X' = X.
Proof.
  unfold check_array. destruct (_ && _); congruence.
Qed.

Lemma column_nonempty (X : matrix) (i : nat) :
  (1 <= n_rows X)%nat -> column X i <> [].
Proof.
  unfold n_rows, column. destruct X; simpl; [lia|congruence].
Qed.

Lemma set_hist_edges_eta (self : HBOS) (H E : list (list Q)) :
  hist_ self = Some H -> bin_edges_ self = Some E ->
  self = set_bin_edges (set_hist self H) E.
Proof.
  destruct self; simpl. intros -> ->. reflexivity.
Qed.

Lemma fit_features_ok (X : matrix) (cols : list nat) :
  (1 <= n_rows X)%nat ->
  forall (self : HBOS) (H E : list (list Q)),
    (1 <= n_bins self)%Z ->
    hist_ self = Some H -> bin_edges_ self = Some E ->
    length H = length E ->
    exists H' E',
      fit_features self X cols = (set_bin_edges (set_hist self H') E', Ok tt)
      /\ length H' = length H /\ length E' = length E
      /\ (forall i, In i cols -> (i < length H)%nat ->
                    exists h e,
                      np.histogram (column X i) (n_bins self) = Ok (h, e)
                      /\ nth_error H' i = Some h /\ nth_error E' i = Some e)
      /\ (forall i, ~ In i cols ->
                    nth_error H' i = nth_error H i
                    /\ nth_error E' i = nth_error E i).
Proof.
  intros HX. induction cols as [|i cols IH]; intros self H E Hb HH HE Hlen.
  - exists H, E. simpl. split; [|repeat split; tauto].
    f_equal. apply set_hist_edges_eta; assumption.
  - destruct (histogram_ok Hb (column_nonempty X i HX))
      as [h [e [Hhist [_ [Hwf Hmass]]]]].
    cbn [fit_features]. rewrite Hhist, HH, HE, (isclose_one Hmass).
    destruct (IH (set_bin_edges (set_hist self (set_col H i h))
                                (set_col E i e))
                 (set_col H i h) (set_col E i e))
      as [H' [E' [Hfit [HlH [HlE [Hin Hout]]]]]];
      try reflexivity; try assumption.
    { rewrite !set_col_length. assumption. }
    exists H', E'. rewrite Hfit.
    rewrite set_col_length in HlH, HlE, Hin.
    split; [destruct self; reflexivity|].
    split; [assumption|]. split; [assumption|]. split.
    + intros j Hj Hjl.
      destruct (in_dec Nat.eq_dec j cols) as [Hjc|Hjc].
      * apply Hin; assumption.
      * destruct Hj as [->|Hj]; [|contradiction].
        destruct (Hout j Hjc) as [E1 E2].
        exists h, e. split; [exact Hhist|]. split.
        -- rewrite E1. apply set_col_same. assumption.
        -- rewrite E2. apply set_col_same. lia.
    + intros j Hj.
      assert (Hij : i <> j) by (intros ->; apply Hj; left; reflexivity).
      assert (Hjc : ~ In j cols) by (intros Hc; apply Hj; right; assumption).
      destruct (Hout j Hjc) as [E1 E2].
      rewrite E1, E2, !set_col_other by assumption. split; reflexivity.
Qed.

Lemma scores_of_params (s1 s2 : HBOS) (H E : list (list Q)) (X : matrix) :
  n_bins s1 = n_bins s2 -> alpha s1 = alpha s2 -> tol s1 = tol s2 ->
  scores_of s1 H E X = scores_of s2 H E X.
Proof.
  intros Hn Ha Ht.
  unfold scores_of, score_of, feature_score, score_sample, out_score.
  rewrite Hn, Ha, Ht. reflexivity.
Qed.

(** For a positive number of bins [fit] succeeds on every matrix that
    [check_array] accepts, and leaves one checked histogram per
    dimension. *)
Lemma fit_result (self : HBOS) (X : matrix) :
  (1 <= n_bins self)%Z -> check_array X = Ok X ->
  exists H E,
    fit self X
    = (mkHBOS (contamination self) (n_bins self) (alpha self) (tol self)
              (Some 2%Z) (Some H) (Some E)
              (Some (invert_sum (scores_of self H E X))),
       Ok tt)
    /\ length H = n_cols X /\ length E = n_cols X
    /\ (forall i, (i < n_cols X)%nat ->
                  exists h e,
                    np.histogram (column X i) (n_bins self) = Ok (h, e)
                    /\ nth_error H i = Some h /\ nth_error E i = Some e).
Proof.
  intros Hb HX. destruct (check_array_shape HX) as [Hr [Hc Hrows]].
  unfold fit. rewrite HX. unfold np.zeros.
  unfold _set_n_classes. cbn [n_bins set_classes set_hist set_bin_edges].
  destruct (n_bins self <? 0)%Z eqn:E0; [apply Z.ltb_lt in E0; lia|].
  destruct (n_bins self + 1 <? 0)%Z eqn:E1; [apply Z.ltb_lt in E1; lia|].
  set (s2 := set_bin_edges (set_hist (set_classes self 2) _) _).
  destruct (@fit_features_ok X (seq 0 (n_cols X)) Hr s2
              (repeat (repeat 0 (Z.to_nat (n_bins self))) (n_cols X))
              (repeat (repeat 0 (Z.to_nat (n_bins self + 1))) (n_cols X)))
    as [H [E [Hfit [HlH [HlE [Hin _]]]]]];
    try reflexivity; try assumption.
  { rewrite !repeat_length. reflexivity. }
  rewrite repeat_length in HlH, HlE, Hin.
  rewrite Hfit.
  assert (Hfeat : forall i, (i < n_cols X)%nat ->
                    exists h e,
                      np.histogram (column X i) (n_bins self) = Ok (h, e)
                      /\ nth_error H i = Some h /\ nth_error E i = Some e).
  { intros i Hi. apply Hin; [apply in_seq; lia|assumption]. }
  assert (Hfs : fitted_state (set_bin_edges (set_hist s2 H) E) H E).
  { split; try reflexivity; try assumption.
    - congruence.
    - intros i e h He Hh.
      assert (Hi : (i < n_cols X)%nat).
      { rewrite <- HlE. apply nth_error_Some. congruence. }
      destruct (Hfeat i Hi) as [h' [e' [Hhist [Hh' He']]]].
      destruct (histogram_ok Hb (column_nonempty X i Hr))
        as [h2 [e2 [Hhist2 [_ [Hwf _]]]]].
      cbn [n_bins set_bin_edges set_hist set_classes s2].
      congruence. }
  rewrite (calculate_ok Hfs X) by lia.
  rewrite (@scores_of_params (set_bin_edges (set_hist s2 H) E) self)
    by reflexivity.
  exists H, E. split; [reflexivity|repeat split; assumption].
Qed.

Lemma fit_ok (self : HBOS) (X : matrix) :
  (1 <= n_bins self)%Z -> check_array X = Ok X ->
  exists self' H E,
    fit self X = (self', Ok tt)
    /\ fitted_state self' H E
    /\ contamination self' = contamination self
    /\ n_bins self' = n_bins self
    /\ alpha self' = alpha self /\ tol self' = tol self
    /\ decision_scores_ self' = Some (invert_sum (scores_of self' H E X))
    /\ length E = n_cols X
    /\ (forall i, (i < n_cols X)%nat ->
                  np.histogram (column X i) (n_bins self)
                  = Ok (nth i H [], nth i E [])).
Proof.
  intros Hb HX. destruct (check_array_shape HX) as [Hr [Hc Hrows]].
  destruct (fit_result self Hb HX) as [H [E [Hfit [HlH [HlE Hfeat]]]]].
  eexists; exists H, E. split; [exact Hfit|].
  assert (Hcols : forall i, (i < n_cols X)%nat ->
                    np.histogram (column X i) (n_bins self)
                    = Ok (nth i H [], nth i E [])).
  { intros i Hi. destruct (Hfeat i Hi) as [h [e [Hhist [Hh He]]]].
    rewrite (nth_error_nth _ _ [] Hh), (nth_error_nth _ _ [] He).
    exact Hhist. }
  split.
  { split; cbn [n_bins hist_ bin_edges_]; try reflexivity; try assumption.
    - congruence.
    - intros i e h He Hh.
      assert (Hi : (i < n_cols X)%nat).
      { rewrite <- HlE. apply nth_error_Some. congruence. }
      specialize (Hcols i Hi).
      rewrite (nth_error_nth _ _ [] Hh), (nth_error_nth _ _ [] He) in Hcols.
      destruct (histogram_ok Hb (column_nonempty X i Hr))
        as [h2 [e2 [Hhist2 [_ [Hwf _]]]]].
      congruence. }
  cbn [contamination n_bins alpha tol decision_scores_].
  repeat split; assumption.
Qed.

(** ** The ways [fit] ends *)

Lemma check_array_cases (X : matrix) :
  check_array X = Ok X \/ check_array X = Raise ValueError.
Proof.
  unfold check_array. destruct (_ && _); auto.
Qed.

Lemma fit_invalid_input (self : HBOS) (X : matrix) (e : exn) :
  check_array X = Raise e -> fit self X = (self, Raise e).
Proof.
  intros HX. unfold fit. rewrite HX. reflexivity.
Qed.

Lemma fit_negative_bins (self : HBOS) (X : matrix) :
  (n_bins self < 0)%Z -> check_array X = Ok X ->
  fit self X = (set_classes self 2, Raise ValueError).
Proof.
  intros Hb HX. unfold fit. rewrite HX. unfold np.zeros, _set_n_classes.
  cbn [n_bins set_classes].
  apply Z.ltb_lt in Hb. rewrite Hb. reflexivity.
Qed.

(** With [n_bins = 0] the arrays are allocated before [np.histogram]
    refuses the number of bins. *)
Lemma fit_zero_bins (self : HBOS) (X : matrix) :
  n_bins self = 0%Z -> check_array X = Ok X ->
  fit self X
  = (set_bin_edges (set_hist (set_classes self 2) (repeat [] (n_cols X)))
                   (repeat [0] (n_cols X)),
     Raise ValueError).
Proof.
  intros Hb HX. destruct (check_array_shape HX) as [_ [Hc _]].
  unfold fit. rewrite HX. unfold np.zeros.
  unfold _set_n_classes. cbn [n_bins set_classes set_hist set_bin_edges]. rewrite Hb.
  cbn [Z.ltb Z.compare Z.add Z.to_nat Pos.to_nat Pos.iter_op repeat Nat.add].
  destruct (n_cols X) as [|c]; [lia|].
  cbn [seq fit_features n_bins set_hist set_bin_edges set_classes].
  rewrite Hb. reflexivity.
Qed.

(** In the exact arithmetic [np.histogram] returns on every column once
    there is a bin, and a call of [fit] ends in one of four ways. *)
Lemma fit_cases (self : HBOS) (X : matrix) :
  (exists self', fit self X = (self', Ok tt)
                 /\ (1 <= n_bins self)%Z /\ check_array X = Ok X)
  \/ (fit self X = (self, Raise ValueError)
      /\ check_array X = Raise ValueError)
  \/ (fit self X = (set_classes self 2, Raise ValueError)
      /\ (n_bins self < 0)%Z)
  \/ (fit self X
      = (set_bin_edges (set_hist (set_classes self 2) (repeat [] (n_cols X)))
                       (repeat [0] (n_cols X)),
         Raise ValueError)
      /\ n_bins self = 0%Z /\ check_array X = Ok X).
Proof.
  destruct (check_array_cases X) as [HX|HX].
  - destruct (Z_lt_le_dec (n_bins self) 0) as [Hn|Hn].
    + right; right; left. split; [apply fit_negative_bins|]; assumption.
    + destruct (Z.eq_dec (n_bins self) 0) as [Hz|Hz].
      * right; right; right. split; [apply fit_zero_bins|]; auto.
      * left. assert (Hb : (1 <= n_bins self)%Z) by lia.
        destruct (fit_ok self Hb HX) as [self' [H [E [Hfit _]]]].
        exists self'. auto.
  - right; left. split; [apply fit_invalid_input|]; assumption.
Qed.

Lemma fit_success_inv (self self' : HBOS) (X : matrix) :
  fit self X = (self', Ok tt) ->
  (1 <= n_bins self)%Z /\ check_array X = Ok X.
Proof.
  intros Hfit.
  destruct (fit_cases self X)
    as [[s [_ [Hb HX]]]|[[Hf _]|[[Hf _]|[Hf _]]]];
    [auto|congruence..].
Qed.

(** ** [fit] whatever [np.histogram] does *)

(** What a call of [fit_with] leaves of the detector, for every routine
    [histogram]: the loop over the dimensions assigns to columns of
    [hist_] and [bin_edges_] only, and what it leaves in them is
    determined by the arrays it starts from, the number of bins and the
    matrix. *)
Section FitWith.

Variable histogram : list Q -> Z -> result (list Q * list Q).

Lemma fit_features_with_inv (X : matrix) (cols : list nat) :
  forall (self self' : HBOS) (r : result unit) (H E : list (list Q)),
    hist_ self = Some H -> bin_edges_ self = Some E ->
    fit_features_with histogram self X cols = (self', r) ->
    decision_scores_ self' = decision_scores_ self
    /\ exists H' E', hist_ self' = Some H' /\ bin_edges_ self' = Some E'
                     /\ length H' = length H /\ length E' = length E.
Proof.
  induction cols as [|i cols IH]; intros self self' r H E HH HE Hfit;
    cbn [fit_features_with] in Hfit.
  - injection Hfit as <- _. split; [reflexivity|]. exists H, E. auto.
  - destruct (histogram _ _) as [[h e]|ex].
    + rewrite HH, HE in Hfit.
      destruct (np.isclose _ _ _).
      * eapply IH in Hfit; [|reflexivity|reflexivity].
        destruct Hfit as [Hd [H' [E' [HH' [HE' [HlH HlE]]]]]].
        split; [exact Hd|]. exists H', E'.
        rewrite set_col_length in HlH, HlE. auto.
      * injection Hfit as <- _. split; [reflexivity|].
        do 2 eexists. split; [reflexivity|]. split; [reflexivity|].
        rewrite !set_col_length. auto.
    + injection Hfit as <- _. split; [reflexivity|]. exists H, E. auto.
Qed.

Lemma fit_features_with_agree (X : matrix) (cols : list nat) :
  forall s1 s2 : HBOS,
    hist_ s1 = hist_ s2 -> bin_edges_ s1 = bin_edges_ s2 ->
    n_bins s1 = n_bins s2 ->
    snd (fit_features_with histogram s1 X cols)
    = snd (fit_features_with histogram s2 X cols)
    /\ hist_ (fst (fit_features_with histogram s1 X cols))
       = hist_ (fst (fit_features_with histogram s2 X cols))
    /\ bin_edges_ (fst (fit_features_with histogram s1 X cols))
       = bin_edges_ (fst (fit_features_with histogram s2 X cols)).
Proof.
  induction cols as [|i cols IH]; intros s1 s2 HH HE Hn;
    cbn [fit_features_with].
  - cbn [fst snd]. auto.
  - rewrite Hn, HH, HE.
    destruct (histogram _ _) as [[h e]|ex]; [|cbn [fst snd]; auto].
    destruct (hist_ s2) as [H|] eqn:E2;
      [|cbn [fst snd]; repeat split; congruence].
    destruct (bin_edges_ s2) as [E|] eqn:E3;
      [|cbn [fst snd]; repeat split; congruence].
    destruct (np.isclose _ _ _).
    + apply IH; [reflexivity|reflexivity|exact Hn].
    + cbn [fst snd]. auto.
Qed.

Lemma fit_with_cases (self : HBOS) (X : matrix) :
  (check_array X = Raise ValueError
   /\ fit_with histogram self X = (self, Raise ValueError))
  \/ (check_array X = Ok X /\ (n_bins self < 0)%Z
      /\ fit_with histogram self X = (set_classes self 2, Raise ValueError))
  \/ (check_array X = Ok X /\ (0 <= n_bins self)%Z
      /\ exists self' r H E,
          fit_with histogram self X = (self', r)
          /\ hist_ self' = Some H /\ bin_edges_ self' = Some E
          /\ length H = n_cols X /\ length E = n_cols X
          /\ (r <> Ok tt -> decision_scores_ self' = decision_scores_ self)).
Proof.
  unfold fit_with.
  destruct (check_array_cases X) as [HX|HX]; rewrite HX; [|left; auto].
  right. unfold _set_n_classes, np.zeros.
  cbn [n_bins set_classes set_hist].
  destruct (n_bins self <? 0)%Z eqn:Eb.
  - left. apply Z.ltb_lt in Eb. auto.
  - right. apply Z.ltb_ge in Eb. split; [reflexivity|]. split; [exact Eb|].
    destruct (n_bins self + 1 <? 0)%Z eqn:Eb'; [apply Z.ltb_lt in Eb'; lia|].
    match goal with
    | |- context [fit_features_with histogram ?s X ?c] =>
        destruct (fit_features_with histogram s X c) as [s' r] eqn:Ef;
        eapply fit_features_with_inv in Ef; [|reflexivity|reflexivity]
    end.
    destruct Ef as [Hd [H [E [HH [HE [HlH HlE]]]]]].
    rewrite repeat_length in HlH, HlE. cbn in Hd.
    destruct r as [[]|ex].
    + destruct (_calculate_outlier_scores s' X) as [sc|ex].
      * do 4 eexists. split; [reflexivity|].
        unfold _process_decision_scores.
        cbn [hist_ bin_edges_ set_decision_scores].
        repeat (split; [eassumption|]). congruence.
      * exists s', (Raise ex), H, E. auto 10.
    + exists s', (Raise ex), H, E. auto 10.
Qed.

Lemma fit_with_arrays (s1 s2 : HBOS) (X : matrix) :
  check_array X = Ok X -> (0 <= n_bins s1)%Z -> n_bins s2 = n_bins s1 ->
  hist_ (fst (fit_with histogram s2 X)) = hist_ (fst (fit_with histogram s1 X))
  /\ bin_edges_ (fst (fit_with histogram s2 X))
     = bin_edges_ (fst (fit_with histogram s1 X)).
Proof.
  intros HX Hb Hn. unfold fit_with. rewrite HX.
  unfold _set_n_classes, np.zeros. cbn [n_bins set_classes set_hist].
  rewrite Hn.
  destruct (n_bins s1 <? 0)%Z eqn:Eb; [apply Z.ltb_lt in Eb; lia|].
  destruct (n_bins s1 + 1 <? 0)%Z eqn:Eb'; [apply Z.ltb_lt in Eb'; lia|].
  match goal with
  | |- context [fit_features_with histogram ?a X ?c] =>
      match goal with
      | |- context [fit_features_with histogram ?b X c] =>
          lazymatch a with
          | b => fail
          | _ => destruct (@fit_features_with_agree X c a b)
                   as [Hr [HH HE]]; [reflexivity|reflexivity|cbn; lia|];
                 destruct (fit_features_with histogram a X c) as [a' ra];
                 destruct (fit_features_with histogram b X c) as [b' rb]
          end
      end
  end.
  cbn [fst snd] in Hr, HH, HE. subst rb.
  unfold _process_decision_scores.
  destruct ra as [[]|ex];
    [destruct (_calculate_outlier_scores a' X),
              (_calculate_outlier_scores b' X)|];
    cbn [fst hist_ bin_edges_ set_decision_scores]; auto.
Qed.

(** With [n_bins = 0] the arrays are allocated before the routine
    refuses the number of bins. *)
Lemma fit_with_zero_bins (self : HBOS) (X : matrix) :
  n_bins self = 0%Z -> check_array X = Ok X ->
  (forall a, histogram a 0%Z = Raise ValueError) ->
  fit_with histogram self X
  = (set_bin_edges (set_hist (set_classes self 2) (repeat [] (n_cols X)))
                   (repeat [0] (n_cols X)),
     Raise ValueError).
Proof.
  intros Hb HX Hrefuse. destruct (check_array_shape HX) as [_ [Hc _]].
  unfold fit_with. rewrite HX. unfold np.zeros, _set_n_classes.
  cbn [n_bins set_classes set_hist set_bin_edges]. rewrite Hb.
  cbn [Z.ltb Z.compare Z.add Z.to_nat Pos.to_nat Pos.iter_op repeat Nat.add].
  destruct (n_cols X) as [|c]; [lia|].
  cbn [seq fit_features_with n_bins set_hist set_bin_edges set_classes].
  rewrite Hb, Hrefuse. reflexivity.
Qed.

End FitWith.

(** [fit] is [fit_with] at the exact [np.histogram]. *)
Lemma fit_features_with_exact (X : matrix) (cols : list nat) (self : HBOS) :
  fit_features_with np.histogram self X cols = fit_features self X cols.
Proof.
  revert self. induction cols as [|i cols IH]; intros self;
    cbn [fit_features_with fit_features]; [reflexivity|].
  destruct (np.histogram _ _) as [[h e]|ex]; [|reflexivity].
  destruct (hist_ self); [|reflexivity].
  destruct (bin_edges_ self); [|reflexivity].
  destruct (np.isclose _ _ _); [apply IH|reflexivity].
Qed.

Lemma fit_with_exact (self : HBOS) (X : matrix) :
  fit_with np.histogram self X = fit self X.
Proof.
  unfold fit_with, fit.
  destruct (check_array X); [|reflexivity].
  destruct (np.zeros _ _); [|reflexivity].
  destruct (np.zeros _ _); [|reflexivity].
  rewrite fit_features_with_exact. reflexivity.
Qed.

(** ** Fitted models and their queries *)

Lemma fitted_inv (self : HBOS) :
  fitted self ->
  valid_params self
  /\ exists H E, fitted_state self H E.
Proof.
  intros [self0 [X [[Ha Ht] Hfit]]].
  destruct (@fit_success_inv _ _ _ Hfit) as [Hb HX].
  destruct (@fit_ok self0 X Hb HX)
    as [self' [H [E [Hfit' [Hfs [_ [_ [Hal [Htl _]]]]]]]]].
  assert (self' = self) by congruence. subst self'.
  split; [unfold valid_params; rewrite Hal, Htl; auto|].
  exists H, E. exact Hfs.
Qed.

Lemma fitted_state_accessors (self : HBOS) (H E : list (list Q)) (i : nat) :
  fitted_state self H E ->
  features self = length E /\ edges_of self i = nth i E []
  /\ hist_of self i = nth i H [].
Proof.
  intros Hfs. unfold features, edges_of, hist_of.
  rewrite (fs_hist Hfs), (fs_edges Hfs). auto.
Qed.

Lemma value_at_cols (X : matrix) (j i : nat) (v : Q) :
  check_array X = Ok X -> value_at X j i = Some v -> (i < n_cols X)%nat.
Proof.
  intros HX Hv. destruct (check_array_shape HX) as [_ [_ Hrows]].
  unfold value_at in Hv. destruct (nth_error X j) as [row|] eqn:Hj;
    [|discriminate].
  rewrite <- (Hrows row (nth_error_In _ _ Hj)).
  apply nth_error_Some. congruence.
Qed.

(** The entry of a query is the score of its value on the histogram of
    its dimension. *)
Lemma contribution_score (self : HBOS) (X : matrix) (j i : nat) (v : Q) :
  fitted self -> check_array X = Ok X -> (n_cols X <= features self)%nat ->
  value_at X j i = Some v ->
  exists r, contribution self X j i = Some r
            /\ feature_score self (edges_of self i) (hist_of self i) v = Ok r
            /\ wf_feature (n_bins self) (edges_of self i) (hist_of self i)
            /\ (1 <= n_bins self)%Z.
Proof.
  intros Hf HX Hc Hv. destruct (@fitted_inv self Hf) as [_ [H [E Hfs]]].
  destruct (@fitted_state_accessors self H E i Hfs) as [Hfe [He Hh]].
  rewrite Hfe in Hc. rewrite He, Hh.
  pose proof (@value_at_cols X j i v HX Hv) as Hi.
  unfold value_at in Hv.
  destruct (nth_error X j) as [row|] eqn:Hj; [|discriminate].
  destruct (@scores_entry self H E X j i row v Hj Hv Hi) as [srow [Hs1 Hs2]].
  exists (score_of self (nth i E []) (nth i H []) v).
  unfold contribution. rewrite (@calculate_ok self H E Hfs X Hc), Hs1, Hs2.
  split; [reflexivity|]. split; [apply (@feature_score_of self H E Hfs); lia|].
  split; [apply (@fitted_feature self H E Hfs); lia|apply (fs_bins Hfs)].
Qed.

(** ** The branches of the scoring loop, in terms of the value *)

Section Policy.

Variables (self : HBOS) (e h : list Q).
Hypothesis bins_pos : (1 <= n_bins self)%Z.
Hypothesis wf_eh : wf_feature (n_bins self) e h.

Local Abbreviation n := (length h) (only parsing).
Local Abbreviation first_edge := (nth 0 e 0) (only parsing).
Local Abbreviation last_edge := (nth (length h) e 0) (only parsing).

Lemma policy_lengths : length e = S n /\ (1 <= n)%nat /\ e <> [].
Proof.
  destruct (feature_lengths self bins_pos wf_eh) as [He Hn].
  repeat split; try assumption.
  intros ->. simpl in He. lia.
Qed.

Lemma first_width_pos : 0 < nth 1 e 0 - first_edge.
Proof.
  destruct policy_lengths as [He [Hn _]].
  pose proof (sorted_diff_pos (wf_edges_sorted wf_eh)) as Hd.
  destruct e as [|x [|y l]]; simpl in He; try lia.
  inversion Hd; subst. simpl. assumption.
Qed.

Lemma sorted_nth_lt (l : list Q) (a b : nat) :
  StronglySorted Qlt l -> (a < b < length l)%nat -> nth a l 0 < nth b l 0.
Proof.
  revert a b. induction l as [|x l IH]; intros a b Hs Hab;
    simpl in Hab; [lia|].
  inversion Hs as [|? ? Hs' Hx]; subst.
  destruct b as [|b]; [lia|]. destruct a as [|a].
  - simpl. rewrite Forall_forall in Hx. apply Hx, nth_In. lia.
  - simpl. apply IH; [assumption|lia].
Qed.

Lemma last_width_pos : 0 < last_edge - nth (n - 1) e 0.
Proof.
  destruct policy_lengths as [He [Hn _]].
  assert (nth (n - 1) e 0 < nth n e 0).
  { apply sorted_nth_lt; [apply (wf_edges_sorted wf_eh)|lia]. }
  lra.
Qed.


(** Not above the first edge and within the tolerance: the first bin. *)
Lemma score_near_below (v : Q) :
  v <= first_edge ->
  first_edge - v <= tol self * (nth 1 e 0 - first_edge) ->
  feature_score self e h v = Ok (bin_score self h 0).
Proof.
  intros Hv Hd. destruct policy_lengths as [He [Hn Hne]].
  rewrite (@feature_score_low self e h bins_pos wf_eh v)
    by (apply searchsorted_first; assumption).
  replace (Qle_bool _ _) with true; [reflexivity|].
  symmetry. apply Qle_bool_iff. lra.
Qed.





(** Inside bin [b], which is closed on the right. *)
Lemma score_in_bin (v : Q) (b : nat) :
  (b < n)%nat -> nth b e 0 < v -> v <= nth (S b) e 0 ->
  feature_score self e h v = Ok (bin_score self h b).
Proof.
  intros Hb Hlo Hhi. destruct policy_lengths as [He [Hn Hne]].
  apply (@feature_score_bin self e h wf_eh v b); [|assumption].
  apply searchsorted_inside; try assumption.
  - apply (wf_edges_sorted wf_eh).
  - lia.
Qed.

(** A value in the range of the edges lies on the first edge or in
    exactly one bin. *)
Lemma in_range_bin (v : Q) :
  first_edge <= v -> v <= last_edge ->
  v == first_edge
  \/ exists b, (b < n)%nat /\ nth b e 0 < v /\ v <= nth (S b) e 0.
Proof.
  intros Hlo Hhi. destruct policy_lengths as [He [Hn Hne]].
  pose proof (searchsorted_le_length e v) as Hle.
  destruct (np.searchsorted_left e v) as [|k] eqn:Hk.
  - left. pose proof (@searchsorted_at e v) as Hat.
    rewrite Hk in Hat.
    apply Qle_antisym; [apply Hat; lia|assumption].
  - right. exists k.
    assert (Hbelow : nth k e 0 < v).
    { apply searchsorted_below. lia. }
    assert (Hkn : (k < n)%nat).
    { destruct (Nat.eq_dec k n) as [->|Hkn]; [|lia].
      lra. }
    repeat split; try assumption.
    pose proof (@searchsorted_at e v) as Hat. rewrite Hk in Hat.
    apply Hat. lia.
Qed.

End Policy.

(** ** Successful calls of [fit] *)

Lemma fit_features_count (self self' : HBOS) (X : matrix) :
  fit self X = (self', Ok tt) -> features self' = n_cols X.
Proof.
  intros Hfit. destruct (@fit_success_inv _ _ _ Hfit) as [Hb HX].
  destruct (@fit_ok self X Hb HX)
    as [s [H [E [Hf [Hfs [_ [_ [_ [_ [_ [HlE _]]]]]]]]]]].
  assert (s = self') by congruence. subst s.
  destruct (@fitted_state_accessors self' H E 0%nat Hfs) as [-> _].
  exact HlE.
Qed.

Lemma fit_gives_fitted (self : HBOS) (X : matrix) :
  valid_params self -> (1 <= n_bins self)%Z -> check_array X = Ok X ->
  fit self X = (fst (fit self X), Ok tt) /\ fitted (fst (fit self X)).
Proof.
  intros Hp Hb HX.
  destruct (@fit_ok self X Hb HX) as [self' [H [E [Hfit _]]]].
  rewrite Hfit. split; [reflexivity|].
  exists self, X. split; [exact Hp|exact Hfit].
Qed.

Lemma Q2R_pos (q : Q) : 0 < q -> (0 < Q2R q)%R.
Proof.
  intros Hq. rewrite <- RMicromega.Q2R_0. apply Qlt_Rlt. exact Hq.
Qed.

Lemma wf_hist_nth_nonneg (n : Z) (e h : list Q) (b : nat) :
  wf_feature n e h -> 0 <= nth b h 0.
Proof.
  intros Hwf. destruct (Nat.lt_ge_cases b (length h)) as [Hb|Hb].
  - pose proof (wf_hist_nonneg Hwf) as Hnn.
    rewrite Forall_forall in Hnn. apply Hnn, nth_In. exact Hb.
  - rewrite nth_overflow by exact Hb. lra.
Qed.

(** ** The worked example *)

Lemma example_fitted : fitted example_model.
Proof.
  exists example_config, example_training. split.
  - unfold valid_params. simpl. lra.
  - unfold example_model.
    destruct (@fit_ok example_config example_training)
      as [self' [H [E [Hfit _]]]]; [simpl; lia|reflexivity|].
    rewrite Hfit. reflexivity.
Qed.

Example default_constructed :
  default_HBOS
  = Ok (mkHBOS (1 # 10) 10 (1 # 10) (1 # 2) None None None None).
Proof. reflexivity. Qed.

Example example_edges :
  bin_edges_ example_model = Some [[0 # 2; 1 # 2; 1]].
Proof. reflexivity. Qed.

Example example_hist :
  Forall2 Qeq (hist_of example_model 0) [4 # 3; 2 # 3].
Proof. repeat constructor; reflexivity. Qed.

(** * The claims *)

(** ** C1: the boundary policy *)



(** ** C2: values inside the fitted range *)

(** C2.  On a fitted model, a query value between the first and the last
    edge of its dimension receives [log2(density_b + alpha)] of the bin
    [b] that contains it, the bins being closed on the right:
    [edges[b] < v <= edges[b+1]]; a value equal to the first edge
    receives the score of the first bin.  Such a bin always exists. *)
Theorem right_closed_bins (self : HBOS) (X : matrix) (j i : nat) (v : Q) :
  fitted self -> check_array X = Ok X -> (n_cols X <= features self)%nat ->
  value_at X j i = Some v ->
  let e := edges_of self i in
  let h := hist_of self i in
  let n := length h in
  nth 0 e 0 <= v -> v <= nth n e 0 ->
  (v == nth 0 e 0 -> contribution self X j i = Some (bin_score self h 0))
  /\ (forall b, (b < n)%nat -> nth b e 0 < v -> v <= nth (S b) e 0 ->
                contribution self X j i = Some (bin_score self h b))
  /\ (v == nth 0 e 0
      \/ exists b, (b < n)%nat /\ nth b e 0 < v /\ v <= nth (S b) e 0)
  /\ forall b, bin_score self h b = np.log2 (Q2R (nth b h 0 + alpha self)).
Proof.
  intros Hf HX Hc Hv e h n Hlo Hhi.
  destruct (@contribution_score self X j i v Hf HX Hc Hv)
    as [r [Hr [Hs [Hwf Hb]]]].
  destruct (@fitted_inv self Hf) as [[_ [Ht _]] _].
  fold e h in Hs, Hwf. rewrite Hr. repeat split.
  - intros Heq. f_equal.
    pose proof (@first_width_pos self e h Hb Hwf) as Hw.
    assert (0 <= tol self * (nth 1 e 0 - nth 0 e 0)).
    { apply Qmult_le_0_compat; lra. }
    rewrite (@score_near_below self e h Hb Hwf v) in Hs by lra.
    inversion Hs. reflexivity.
  - intros b Hbn Hgt Hle. f_equal.
    rewrite (@score_in_bin self e h Hb Hwf v b) in Hs by assumption.
    inversion Hs. reflexivity.
  - apply (@in_range_bin self e h Hb Hwf v); assumption.
Qed.

Lemma right_closed_bins_witness :
  fitted example_model
  /\ check_array [[1 # 2]] = Ok [[1 # 2]]
  /\ (n_cols [[1 # 2]] <= features example_model)%nat
  /\ value_at [[1 # 2]] 0 0 = Some (1 # 2)
  /\ nth 0 (edges_of example_model 0) 0 <= 1 # 2
  /\ 1 # 2 <= nth (length (hist_of example_model 0))
                  (edges_of example_model 0) 0
  /\ contribution example_model [[1 # 2]] 0 0
     = Some (bin_score example_model (hist_of example_model 0) 0).
Proof.
  assert (Hc : (n_cols [[1 # 2]] <= features example_model)%nat)
    by qcompute.
  assert (Hlo : nth 0 (edges_of example_model 0) 0 <= 1 # 2) by qcompute.
  assert (Hhi : 1 # 2 <= nth (length (hist_of example_model 0))
                             (edges_of example_model 0) 0) by qcompute.
  split; [exact example_fitted|]. split; [reflexivity|].
  split; [exact Hc|]. split; [reflexivity|].
  split; [exact Hlo|]. split; [exact Hhi|].
  assert (Hb : (0 < length (hist_of example_model 0))%nat) by qcompute.
  assert (Hgt : nth 0 (edges_of example_model 0) 0 < 1 # 2) by qcompute.
  assert (Hle : 1 # 2 <= nth 1 (edges_of example_model 0) 0) by qcompute.
  exact (proj1 (proj2 (@right_closed_bins example_model [[1 # 2]] 0 0 (1 # 2)
                         example_fitted eq_refl Hc eq_refl Hlo Hhi))
               0%nat Hb Hgt Hle).
Defined.

(** ** C3: the mass of a fitted histogram *)

Lemma histogram_deterministic (a : list Q) (bins : Z) (h e : list Q) :
  (1 <= bins)%Z -> a <> [] -> np.histogram a bins = Ok (h, e) ->
  e = np.linspace (fst (np.outer_edges a)) (snd (np.outer_edges a))
                  (Z.to_nat bins)
  /\ h = np.density (np.bin_counts a e) (np.diff e) (length a)
  /\ wf_feature bins e h
  /\ np.sum (np.mul h (np.diff e)) == 1.
Proof.
  intros Hb Ha Hhist.
  destruct (histogram_ok Hb Ha) as [h' [e' [Hhist' [He [Hwf Hmass]]]]].
  destruct (histogram_edges a Hb) as [h2 [Hhist2 Hh2]].
  assert (h' = h /\ e' = e) as [-> ->] by (split; congruence).
  assert (h2 = h) as -> by congruence.
  split; [exact He|]. split; [|split; assumption].
  rewrite histogram_total in Hh2 by (assumption || lia).
  rewrite <- He in Hh2. exact Hh2.
Qed.

(** C3.  The assertion in the loop of [fit] fails on a matrix that
    [check_array] accepts.  For the column of the two adjacent doubles 1
    and [1 + 2^-52] and two bins, the middle edge [1 + 2^-53] of
    [np.linspace] rounds to 1: the first bin has width zero and holds no
    value, its density [0 / 0 / 2] is NaN, so is the sum of the densities
    times the widths, and [np.isclose(1, NaN, atol=0.1)] is false: the
    loop raises AssertionError. *)
Theorem assertion_fails_on_adjacent_doubles :
  f64.edges adjacent_doubles 2 = [1; 1; 0x1.0000000000001p+0]%float
  /\ f64.diff (f64.edges adjacent_doubles 2) = [0; 0x1p-52]%float
  /\ f64.bin_counts adjacent_doubles (f64.edges adjacent_doubles 2)
     = [0; 2]%nat
  /\ PrimFloat.is_nan (nth 0 (fst (f64.histogram adjacent_doubles 2)) 0%float)
     = true
  /\ PrimFloat.is_nan
       (f64.sum (f64.mul (fst (f64.histogram adjacent_doubles 2))
                         (f64.diff (snd (f64.histogram adjacent_doubles 2)))))
     = true
  /\ f64.assertion adjacent_doubles 2 = false
  /\ f64.fit_column adjacent_doubles 2 = Raise AssertionError.
Proof. repeat split; reflexivity. Qed.

(** ** C4: constant dimensions *)




(** ** C5: validation in the constructor *)

Lemma check_parameter_spec (param low high : Q) :
  (low < param < high -> check_parameter param low high = Ok true)
  /\ (~ low < param < high ->
      check_parameter param low high = Raise ValueError).
Proof.
  unfold check_parameter.
  destruct (Qlt_bool low param) eqn:E1, (Qlt_bool param high) eqn:E2;
    simpl; split; intros H; try reflexivity; exfalso;
    repeat match goal with
           | H : Qlt_bool _ _ = true |- _ => apply Qlt_bool_iff in H
           | H : Qlt_bool _ _ = false |- _ => apply Qlt_bool_false_iff in H
           end;
    try (apply H; split; assumption); destruct H; lra.
Qed.

Lemma BaseDetector_init_cases (c : Q) :
  BaseDetector_init c = Ok c \/ BaseDetector_init c = Raise ValueError.
Proof.
  unfold BaseDetector_init. destruct (_ && _); auto.
Qed.

Lemma init_unfitted (n : Z) (a t c : Q) (self : HBOS) :
  __init__ n a t c = Ok self ->
  n_bins self = n /\ hist_ self = None /\ bin_edges_ self = None.
Proof.
  unfold __init__. intros H.
  destruct (BaseDetector_init c); cbn [bind] in H; [|discriminate].
  destruct (check_parameter a 0 1); cbn [bind] in H; [|discriminate].
  destruct (check_parameter t 0 1); cbn [bind] in H; [|discriminate].
  inversion H. auto.
Qed.

(** A detector with zero bins, and one with a negative number of bins,
    is constructed without complaint; it is [fit] that raises. *)
Lemma init_accepts_zero_bins :
  (exists self,
      __init__ 0 (1 # 10) (1 # 2) (1 # 10) = Ok self
      /\ (n_bins self <= 0)%Z
      /\ snd (fit self single_sample) = Raise ValueError)
  /\ (exists self,
        __init__ (-3) (1 # 10) (1 # 2) (1 # 10) = Ok self
        /\ (n_bins self < 0)%Z
        /\ snd (fit self single_sample) = Raise ValueError).
Proof.
  split; eexists; (split; [reflexivity|]); (split; [qcompute|reflexivity]).
Qed.

(** C5, amended.  The constructor raises ValueError when [alpha] or
    [tol] lies outside (0, 1); [n_bins] is not examined: for [alpha] and
    [tol] inside (0, 1) and a contamination the base class accepts, the
    detector is built for every integer [n_bins].  A number of bins that
    is not positive is refused when [fit] is called, which raises
    ValueError whatever the matrix: a negative one by [np.zeros], before
    [hist_] or [bin_edges_] exists; zero, on an accepted matrix, by
    [np.histogram], after both arrays have been allocated. *)
Theorem init_validates_alpha_tol (n : Z) (a t c : Q) :
  (~ 0 < a < 1 \/ ~ 0 < t < 1 -> __init__ n a t c = Raise ValueError)
  /\ (0 < a < 1 -> 0 < t < 1 -> BaseDetector_init c = Ok c ->
      __init__ n a t c = Ok (mkHBOS c n a t None None None None))
  /\ (forall self X, __init__ n a t c = Ok self -> (n <= 0)%Z ->
      snd (fit self X) = Raise ValueError
      /\ ((n < 0)%Z ->
          hist_ (fst (fit self X)) = None
          /\ bin_edges_ (fst (fit self X)) = None)
      /\ (n = 0%Z -> check_array X = Ok X ->
          hist_ (fst (fit self X)) = Some (repeat [] (n_cols X))
          /\ bin_edges_ (fst (fit self X)) = Some (repeat [0] (n_cols X)))).
Proof.
  split; [|split].
  - unfold __init__.
    destruct (check_parameter_spec a 0 1) as [Ha1 Ha2].
    destruct (check_parameter_spec t 0 1) as [Ht1 Ht2].
    intros Hbad.
    destruct (BaseDetector_init_cases c) as [-> | ->]; [|reflexivity].
    cbn [bind].
    destruct (Qlt_le_dec 0 a) as [H0|H0];
      [destruct (Qlt_le_dec a 1) as [H1|H1]|].
    + rewrite Ha1 by (split; assumption). cbn [bind].
      destruct Hbad as [Hbad|Hbad]; [exfalso; apply Hbad; split; assumption|].
      rewrite (Ht2 Hbad). reflexivity.
    + rewrite Ha2 by (intros [_ H]; lra). reflexivity.
    + rewrite Ha2 by (intros [H _]; lra). reflexivity.
  - unfold __init__.
    destruct (check_parameter_spec a 0 1) as [Ha1 _].
    destruct (check_parameter_spec t 0 1) as [Ht1 _].
    intros Ha Ht Hc. rewrite Hc. cbn [bind].
    rewrite (Ha1 Ha). cbn [bind]. rewrite (Ht1 Ht). reflexivity.
  - intros self X Hinit Hn.
    destruct (init_unfitted _ _ _ _ Hinit) as [Hb [Hh He]].
    destruct (fit_cases self X)
      as [[s [Hf [Hb' _]]]|[[Hf HX]|[[Hf Hneg]|[Hf [Hz HX]]]]];
      [lia| | |]; rewrite Hf; cbn [fst snd];
      (split; [reflexivity|]); split.
    + auto.
    + intros _ HX'. congruence.
    + intros _. cbn [hist_ bin_edges_ set_classes]. auto.
    + lia.
    + lia.
    + intros _ _. cbn [hist_ bin_edges_ set_bin_edges set_hist]. auto.
Qed.

Lemma init_validates_alpha_tol_witness :
  0 < 1 # 10 < 1 /\ 0 < 1 # 2 < 1
  /\ BaseDetector_init (1 # 10) = Ok (1 # 10)
  /\ __init__ (-3) (1 # 10) (1 # 2) (1 # 10) = Ok negative_bins_config
  /\ snd (fit negative_bins_config single_sample) = Raise ValueError.
Proof.
  assert (Ha : 0 < 1 # 10 < 1) by (split; reflexivity).
  assert (Ht : 0 < 1 # 2 < 1) by (split; reflexivity).
  pose proof (init_validates_alpha_tol (-3) (1 # 10) (1 # 2) (1 # 10))
    as [_ [Hok Hfit]].
  pose proof (Hok Ha Ht eq_refl) as Hinit.
  split; [exact Ha|]. split; [exact Ht|]. split; [reflexivity|].
  split; [exact Hinit|].
  exact (proj1 (Hfit negative_bins_config single_sample Hinit
                     ltac:(discriminate))).
Defined.

(** ** C6: the number of dimensions of a query *)

(** A query with fewer dimensions than the training matrix is scored
    without any error. *)
Lemma fewer_features_accepted :
  fitted two_feature_model
  /\ features two_feature_model = 2%nat
  /\ check_array [[1 # 2]] = Ok [[1 # 2]]
  /\ n_cols [[1 # 2]] = 1%nat
  /\ exists scores, decision_function two_feature_model [[1 # 2]] = Ok scores.
Proof.
  split; [|split; [reflexivity|split; [reflexivity|split; [reflexivity|]]]].
  - exists example_config, two_feature_training. split.
    + unfold valid_params. simpl. lra.
    + unfold two_feature_model.
      destruct (@fit_ok example_config two_feature_training)
        as [self' [H [E [Hfit _]]]]; [simpl; lia|reflexivity|].
      rewrite Hfit. reflexivity.
  - eexists. reflexivity.
Qed.

Lemma score_feature_missing (self : HBOS) (H E : list (list Q)) (X : matrix) :
  fitted_state self H E -> score_feature self X (length E) = Raise IndexError.
Proof.
  intros Hfs. unfold score_feature. rewrite (fs_edges Hfs).
  cbn [get_attr bind]. unfold get_col.
  replace (nth_error E (length E)) with (@None (list Q));
    [reflexivity|].
  symmetry. apply nth_error_None. lia.
Qed.

Lemma decision_function_state (self self2 : HBOS) (X : matrix) :
  n_bins self2 = n_bins self -> alpha self2 = alpha self ->
  tol self2 = tol self -> hist_ self2 = hist_ self ->
  bin_edges_ self2 = bin_edges_ self ->
  decision_function self2 X = decision_function self X.
Proof.
  intros Hn Ha Ht Hh He.
  unfold decision_function, check_is_fitted, _calculate_outlier_scores,
    score_feature, score_sample.
  rewrite Hn, Ha, Ht, Hh, He. reflexivity.
Qed.

(** C6, amended.  [decision_function] does not compare the number of
    dimensions of the query with that of the fitted histograms.  On a
    fitted model and an accepted query: with at most as many dimensions as
    were fitted it returns one score per sample, the inverted sums of the
    rows of [_calculate_outlier_scores]; with more dimensions it raises
    IndexError, at the first dimension without a histogram.  The result
    depends on the detector only through [n_bins], [alpha], [tol],
    [hist_] and [bin_edges_]. *)
Theorem decision_function_dimensions (self : HBOS) (X : matrix) :
  fitted self -> check_array X = Ok X ->
  ((n_cols X <= features self)%nat ->
   exists outlier_scores,
     _calculate_outlier_scores self X = Ok outlier_scores
     /\ decision_function self X = Ok (invert_sum outlier_scores)
     /\ length (invert_sum outlier_scores) = n_rows X)
  /\ ((features self < n_cols X)%nat ->
      decision_function self X = Raise IndexError)
  /\ (forall self2,
         n_bins self2 = n_bins self -> alpha self2 = alpha self ->
         tol self2 = tol self -> hist_ self2 = hist_ self ->
         bin_edges_ self2 = bin_edges_ self ->
         decision_function self2 X = decision_function self X).
Proof.
  intros Hf HX. destruct (@fitted_inv self Hf) as [_ [H [E Hfs]]].
  destruct (@fitted_state_accessors self H E 0%nat Hfs) as [Hfe _].
  rewrite Hfe. split; [|split].
  - intros Hc. exists (scores_of self H E X).
    split; [apply (@calculate_ok self H E Hfs X Hc)|].
    split; [apply (@decision_function_ok self H E Hfs X HX Hc)|].
    unfold invert_sum, scores_of, n_rows. rewrite !length_map. reflexivity.
  - intros Hc. unfold decision_function, check_is_fitted.
    rewrite (fs_hist Hfs), (fs_edges Hfs). cbn [bind]. rewrite HX.
    cbn [bind]. unfold _calculate_outlier_scores.
    replace (n_cols X) with (length E + S (n_cols X - S (length E)))%nat
      by lia.
    rewrite seq_app. cbn [seq Nat.add].
    rewrite (@mapM_raise _ _ (score_feature self X)
               (fun i => map (score_of self (nth i E []) (nth i H []))
                             (column X i))
               (seq 0 (length E)) _ (length E) IndexError).
    + reflexivity.
    + intros i Hi. apply in_seq in Hi.
      apply (@score_feature_ok self H E Hfs X i). lia.
    + apply (@score_feature_missing self H E X Hfs).
  - intros self2. apply decision_function_state.
Qed.

Lemma decision_function_dimensions_witness :
  fitted example_model
  /\ check_array [[1 # 2; 1 # 2]] = Ok [[1 # 2; 1 # 2]]
  /\ (features example_model < n_cols [[1 # 2; 1 # 2]])%nat
  /\ decision_function example_model [[1 # 2; 1 # 2]] = Raise IndexError.
Proof.
  assert (Hc : (features example_model < n_cols [[1 # 2; 1 # 2]])%nat)
    by qcompute.
  split; [exact example_fitted|]. split; [reflexivity|]. split; [exact Hc|].
  exact (proj1 (proj2 (@decision_function_dimensions
                         example_model [[1 # 2; 1 # 2]]
                         example_fitted eq_refl)) Hc).
Defined.

(** ** C7: what a failed call leaves of the fitted state *)

(** A call of [fit] that fails in [np.histogram] has already replaced
    [hist_] and [bin_edges_] by arrays of zeros: on the fitted example
    whose number of bins was then set to zero the histograms of the
    earlier fit are lost, and on a detector constructed with zero bins the
    two attributes come into being. *)
Lemma failed_fit_resets_histograms :
  fitted example_model
  /\ (exists self',
        fit reconfigured_model single_sample = (self', Raise ValueError)
        /\ hist_ reconfigured_model = hist_ example_model
        /\ bin_edges_ reconfigured_model = bin_edges_ example_model
        /\ hist_ self' = Some [[]] /\ bin_edges_ self' = Some [[0]]
        /\ hist_ self' <> hist_ reconfigured_model
        /\ bin_edges_ self' <> bin_edges_ reconfigured_model)
  /\ (exists self',
        __init__ 0 (1 # 10) (1 # 2) (1 # 10) = Ok zero_bins_config
        /\ fit zero_bins_config single_sample = (self', Raise ValueError)
        /\ hist_ zero_bins_config = None
        /\ hist_ self' = Some [[]] /\ bin_edges_ self' = Some [[0]]).
Proof.
  split; [exact example_fitted|]. split.
  - eexists. split; [reflexivity|].
    repeat (split; [reflexivity|]). split; discriminate.
  - eexists. repeat (split; [reflexivity|]). reflexivity.
Qed.

(** The same loss when [np.histogram] fails on a detector with two
    bins: the histograms of the fitted example are replaced by the zeros
    of the allocation. *)
Example interrupted_refit_loses_histograms :
  fit_with failing_histogram example_model single_sample
  = (interrupted_refit, Raise IndexError)
  /\ hist_ interrupted_refit = Some [[0; 0]]
  /\ bin_edges_ interrupted_refit = Some [[0; 0; 0]]
  /\ hist_ interrupted_refit <> hist_ example_model.
Proof.
  split; [reflexivity|]. split; [reflexivity|]. split; [reflexivity|].
  discriminate.
Qed.

(** C7, amended.  [decision_function] never assigns to the detector.
    Let a call of [fit] raise, whatever [np.histogram] does.  Then
    [decision_scores_] is as it was.  When [check_array] rejects the
    matrix the whole detector is as it was, and when the number of bins
    is negative [hist_] and [bin_edges_] are as they were.  Otherwise,
    the matrix being accepted and the number of bins not negative, the
    call has replaced [hist_] and [bin_edges_] by new arrays with one
    column for each dimension of the matrix: what they hold after the
    call does not depend on what they held before, it is what the same
    call leaves on any detector with the same number of bins.  With zero
    bins, where [np.histogram] refuses the number of bins, it is the
    empty array and a row of zeros. *)
Theorem failed_fit_keeps_state
        (histogram : list Q -> Z -> result (list Q * list Q))
        (self self' : HBOS) (X : matrix) (e : exn) :
  fit_with histogram self X = (self', Raise e) ->
  decision_scores_ self' = decision_scores_ self
  /\ (check_array X = Raise ValueError -> self' = self)
  /\ ((n_bins self < 0)%Z ->
      hist_ self' = hist_ self /\ bin_edges_ self' = bin_edges_ self)
  /\ (check_array X = Ok X -> (0 <= n_bins self)%Z ->
      (exists H E,
          hist_ self' = Some H /\ bin_edges_ self' = Some E
          /\ length H = n_cols X /\ length E = n_cols X)
      /\ forall other : HBOS,
          n_bins other = n_bins self ->
          hist_ (fst (fit_with histogram other X)) = hist_ self'
          /\ bin_edges_ (fst (fit_with histogram other X))
             = bin_edges_ self')
  /\ (n_bins self = 0%Z -> check_array X = Ok X ->
      (forall a, histogram a 0%Z = Raise ValueError) ->
      hist_ self' = Some (repeat [] (n_cols X))
      /\ bin_edges_ self' = Some (repeat [0] (n_cols X))).
Proof.
  intros Hfit.
  assert (Hlast : n_bins self = 0%Z -> check_array X = Ok X ->
                  (forall a, histogram a 0%Z = Raise ValueError) ->
                  hist_ self' = Some (repeat [] (n_cols X))
                  /\ bin_edges_ self' = Some (repeat [0] (n_cols X))).
  { intros Hz HX Hrefuse.
    rewrite (@fit_with_zero_bins histogram self X Hz HX Hrefuse) in Hfit.
    injection Hfit as <- _. auto. }
  destruct (fit_with_cases histogram self X)
    as [[HX Hf]|[[HX [Hn Hf]]|[HX [Hn [s [r [H [E [Hf [HH [HE [HlH [HlE
         Hd]]]]]]]]]]]]];
    rewrite Hf in Hfit; injection Hfit as <- Hr.
  - split; [reflexivity|]. split; [reflexivity|]. split; [auto|].
    split; [congruence|exact Hlast].
  - split; [reflexivity|]. split; [congruence|]. split; [auto|].
    split; [lia|exact Hlast].
  - split; [apply Hd; congruence|]. split; [congruence|]. split; [lia|].
    split; [|exact Hlast].
    intros _ _. split; [exists H, E; auto|].
    intros other Ho.
    destruct (@fit_with_arrays histogram self other X HX Hn Ho) as [E1 E2].
    rewrite Hf in E1, E2. exact (conj E1 E2).
Qed.

Lemma failed_fit_keeps_state_witness :
  fit_with np.histogram example_model [] = (example_model, Raise ValueError)
  /\ decision_scores_ example_model = decision_scores_ example_model
  /\ fit_with failing_histogram example_model single_sample
     = (interrupted_refit, Raise IndexError)
  /\ check_array single_sample = Ok single_sample
  /\ (0 <= n_bins example_model)%Z
  /\ (exists H E,
        hist_ interrupted_refit = Some H
        /\ bin_edges_ interrupted_refit = Some E
        /\ length H = n_cols single_sample
        /\ length E = n_cols single_sample)
  /\ fit_with np.histogram zero_bins_config single_sample
     = (zero_bins_model, Raise ValueError)
  /\ hist_ zero_bins_model = Some (repeat [] (n_cols single_sample)).
Proof.
  assert (Hfit : fit_with np.histogram example_model []
                 = (example_model, Raise ValueError)) by reflexivity.
  assert (Hfit2 : fit_with failing_histogram example_model single_sample
                  = (interrupted_refit, Raise IndexError)) by reflexivity.
  assert (Hb : (0 <= n_bins example_model)%Z) by qcompute.
  split; [exact Hfit|].
  split; [exact (proj1 (@failed_fit_keeps_state _ _ _ _ _ Hfit))|].
  assert (Hfit3 : fit_with np.histogram zero_bins_config single_sample
                  = (zero_bins_model, Raise ValueError)) by reflexivity.
  split; [exact Hfit2|]. split; [reflexivity|]. split; [exact Hb|].
  split; [exact (proj1 (proj1 (proj2 (proj2 (proj2
            (@failed_fit_keeps_state _ _ _ _ _ Hfit2)))) eq_refl Hb))|].
  split; [exact Hfit3|].
  exact (proj1 (proj2 (proj2 (proj2 (proj2
           (@failed_fit_keeps_state _ _ _ _ _ Hfit3))))
           eq_refl eq_refl (fun a => eq_refl))).
Defined.

(** ** C8: scoring before fitting *)

(** After a failed [fit] of a detector with zero bins, [hist_] and
    [bin_edges_] exist, the check for a fitted detector passes and the
    scoring loop fails on its first index. *)
Lemma unfinished_fit_passes_check :
  never_fitted zero_bins_model
  /\ check_is_fitted zero_bins_model = Ok tt
  /\ decision_function zero_bins_model single_sample = Raise IndexError.
Proof.
  split; [|split; reflexivity].
  apply (@fit_failed zero_bins_config zero_bins_model single_sample
                     ValueError).
  - apply (@constructed 0 (1 # 10) (1 # 2) (1 # 10)). reflexivity.
  - reflexivity.
Qed.

(** The exceptions of the scoring loop: none of them is
    NotFittedError. *)
Lemma mapM_raise_inv (A B : Type) (f : A -> result B) (l : list A) (e : exn) :
  mapM f l = Raise e -> exists a, In a l /\ f a = Raise e.
Proof.
  induction l as [|a l IH]; cbn [mapM]; [discriminate|].
  destruct (f a) as [b|e'] eqn:Ea; cbn [bind].
  - destruct (mapM f l) as [bs|e'] eqn:El; cbn [bind]; [discriminate|].
    intros H. injection H as <-.
    destruct (IH eq_refl) as [a' [Hin Ha']].
    exists a'. split; [right; exact Hin|exact Ha'].
  - intros H. injection H as <-. exists a. split; [left; reflexivity|exact Ea].
Qed.

Lemma np_get_raise (A : Type) (a : list A) (k : Z) (e : exn) :
  np.get a k = Raise e -> e = IndexError.
Proof.
  unfold np.get.
  destruct (_ && _)%bool; [destruct (nth_error _ _)|]; congruence.
Qed.

Lemma np_min_raise (a : list R) (e : exn) :
  np.min a = Raise e -> e = ValueError.
Proof. destruct a; cbn; congruence. Qed.

Lemma score_sample_raise (self : HBOS) (edges : list Q) (o : list R)
      (x : Q) (b : Z) (e : exn) :
  score_sample self edges o x b = Raise e -> e = IndexError \/ e = ValueError.
Proof.
  unfold score_sample.
  repeat match goal with
         | |- context [if ?c then _ else _] => destruct c
         | |- context [bind ?r _] =>
             let E := fresh "E" in
             destruct r eqn:E; cbn [bind];
             [|intros H; injection H as <-; left;
               eapply np_get_raise; eassumption]
         end;
    intros H;
    solve [left; eapply np_get_raise; eassumption
          |right; eapply np_min_raise; eassumption].
Qed.

Lemma score_feature_raise (self : HBOS) (X : matrix) (i : nat) (e : exn) :
  score_feature self X i = Raise e -> e <> NotFittedError.
Proof.
  unfold score_feature, get_attr, get_col, np.digitize.
  destruct (bin_edges_ self); cbn [bind]; [|congruence].
  destruct (nth_error _ i); cbn [bind]; [|congruence].
  destruct (_ =? 0)%Z; cbn [bind]; [congruence|].
  destruct (hist_ self); cbn [bind];
    [|destruct (_ =? _)%Z; cbn [bind]; congruence].
  destruct (nth_error _ i); cbn [bind];
    [|destruct (_ =? _)%Z; cbn [bind]; congruence].
  destruct (_ =? _)%Z; cbn [bind]; intros H;
    apply mapM_raise_inv in H; destruct H as [a [_ Ha]];
    apply score_sample_raise in Ha; destruct Ha; congruence.
Qed.

Lemma decision_function_raises (self : HBOS) (X : matrix) :
  decision_function self X = Raise NotFittedError
  <-> hist_ self = None \/ bin_edges_ self = None.
Proof.
  unfold decision_function, check_is_fitted. split.
  - destruct (hist_ self); [|auto]. destruct (bin_edges_ self); [|auto].
    cbn [bind]. unfold check_array.
    destruct (_ && _)%bool; cbn [bind]; [|discriminate].
    unfold _calculate_outlier_scores.
    destruct (mapM _ _) eqn:E; cbn [bind]; [discriminate|].
    intros H. injection H as ->.
    apply mapM_raise_inv in E. destruct E as [i [_ Hi]].
    apply score_feature_raise in Hi. contradiction.
  - intros [-> | ->]; [|destruct (hist_ self)]; reflexivity.
Qed.

(** C8, amended.  [decision_function] raises NotFittedError exactly when
    [hist_] or [bin_edges_] does not exist, and then before anything else
    is computed.  That is the case on every detector fresh from the
    constructor, and still after a call of [fit] on a detector without
    [hist_] that failed because [check_array] rejected the matrix or
    because the number of bins is negative.  It is no longer the case
    once a call of [fit] on an accepted matrix with a number of bins that
    is not negative has returned or raised, whatever [np.histogram] did:
    the two arrays exist, the check passes, and [decision_function] does
    not raise NotFittedError. *)
Theorem unfitted_raises_not_fitted (self : HBOS) (X : matrix) :
  (decision_function self X = Raise NotFittedError
   <-> hist_ self = None \/ bin_edges_ self = None)
  /\ (hist_ self = None \/ bin_edges_ self = None ->
      check_is_fitted self = Raise NotFittedError)
  /\ (forall n a t c, __init__ n a t c = Ok self ->
        decision_function self X = Raise NotFittedError)
  /\ (forall histogram self0 X0 e,
        hist_ self0 = None ->
        fit_with histogram self0 X0 = (self, Raise e) ->
        check_array X0 = Raise ValueError \/ (n_bins self0 < 0)%Z ->
        decision_function self X = Raise NotFittedError)
  /\ (forall histogram self0 X0 r,
        fit_with histogram self0 X0 = (self, r) ->
        check_array X0 = Ok X0 -> (0 <= n_bins self0)%Z ->
        check_is_fitted self = Ok tt
        /\ decision_function self X <> Raise NotFittedError).
Proof.
  pose proof (decision_function_raises self X) as Hiff.
  split; [exact Hiff|]. split; [|split; [|split]].
  - unfold check_is_fitted.
    intros [-> | ->]; [|destruct (hist_ self)]; reflexivity.
  - intros n a t c Hinit. apply Hiff. left.
    apply (init_unfitted _ _ _ _ Hinit).
  - intros histogram self0 X0 e Hnone Hfit Hearly. apply Hiff. left.
    destruct (fit_with_cases histogram self0 X0)
      as [[HX Hf]|[[HX [Hn Hf]]|[HX [Hn [s [r [H [E [Hf _]]]]]]]]];
      try (rewrite Hf in Hfit; injection Hfit as <- _; exact Hnone).
    destruct Hearly as [Hbad|Hneg]; [congruence|lia].
  - intros histogram self0 X0 r Hfit HX Hn.
    destruct (fit_with_cases histogram self0 X0)
      as [[HX' Hf]|[[_ [Hn' Hf]]|[_ [_ [s [r' [H [E [Hf [HH [HE _]]]]]]]]]]];
      [congruence|lia|].
    rewrite Hf in Hfit. injection Hfit as <- _.
    split; [unfold check_is_fitted; rewrite HH, HE; reflexivity|].
    intros Hraise. apply Hiff in Hraise.
    destruct Hraise; congruence.
Qed.

Lemma unfitted_raises_not_fitted_witness :
  __init__ 2 (1 # 2) (1 # 2) (1 # 10) = Ok example_config
  /\ decision_function example_config single_sample = Raise NotFittedError
  /\ fit_with failing_histogram single_bin_config single_sample
     = (interrupted_model, Raise IndexError)
  /\ check_is_fitted interrupted_model = Ok tt.
Proof.
  assert (Hinit : __init__ 2 (1 # 2) (1 # 2) (1 # 10) = Ok example_config)
    by reflexivity.
  assert (Hfit : fit_with failing_histogram single_bin_config single_sample
                 = (interrupted_model, Raise IndexError)) by reflexivity.
  assert (Hb : (0 <= n_bins single_bin_config)%Z) by qcompute.
  split; [exact Hinit|].
  split; [exact (proj1 (proj2 (proj2
            (unfitted_raises_not_fitted example_config single_sample)))
            _ _ _ _ Hinit)|].
  split; [exact Hfit|].
  exact (proj1 (proj2 (proj2 (proj2 (proj2
           (unfitted_raises_not_fitted interrupted_model single_sample))))
           _ _ _ _ Hfit eq_refl Hb)).
Defined.

(** ** Scores and densities *)

Lemma ln2_pos : (0 < ln 2)%R.
Proof. pose proof ln_lt_2. lra. Qed.

Lemma log2_increasing (x y : R) :
  (0 < x)%R -> (x < y)%R -> (np.log2 x < np.log2 y)%R.
Proof.
  intros Hx Hxy. unfold np.log2.
  apply Rmult_lt_compat_r; [apply Rinv_0_lt_compat, ln2_pos|].
  apply ln_increasing; assumption.
Qed.

Lemma log2_monotone (x y : R) :
  (0 < x)%R -> (x <= y)%R -> (np.log2 x <= np.log2 y)%R.
Proof.
  intros Hx [Hxy| ->]; [left; apply log2_increasing; assumption|right].
  reflexivity.
Qed.

(** The score of a bin grows with its density. *)
Lemma bin_score_increasing (self : HBOS) (h : list Q) (b1 b2 : nat) :
  0 < alpha self -> 0 <= nth b1 h 0 -> nth b1 h 0 < nth b2 h 0 ->
  (bin_score self h b1 < bin_score self h b2)%R.
Proof.
  intros Ha H0 Hlt. unfold bin_score. apply log2_increasing.
  - apply Q2R_pos. lra.
  - apply Qlt_Rlt. lra.
Qed.


(** The score of a bin does not decrease with its density. *)
Lemma bin_score_monotone (self : HBOS) (h : list Q) (b1 b2 : nat) :
  0 < alpha self -> 0 <= nth b1 h 0 -> nth b1 h 0 <= nth b2 h 0 ->
  (bin_score self h b1 <= bin_score self h b2)%R.
Proof.
  intros Ha H0 Hle. unfold bin_score. apply log2_monotone.
  - apply Q2R_pos. lra.
  - apply Qle_Rle. lra.
Qed.

(** ** C9: the order of the scores of two bins *)

(** In the example the value 3/4 lies in the bin of density 2/3, the
    value 1/4 in the bin of density 4/3, and the score of the former is
    not the higher one. *)
Lemma lower_density_not_higher_score :
  fitted example_model
  /\ exists r_low r_high,
      contribution example_model [[1 # 4]; [3 # 4]] 1 0 = Some r_low
      /\ contribution example_model [[1 # 4]; [3 # 4]] 0 0 = Some r_high
      /\ r_low = bin_score example_model (hist_of example_model 0) 1
      /\ r_high = bin_score example_model (hist_of example_model 0) 0
      /\ nth 1 (hist_of example_model 0) 0 < nth 0 (hist_of example_model 0) 0
      /\ ~ (r_low > r_high)%R.
Proof.
  split; [exact example_fitted|].
  assert (Hc : (n_cols [[1 # 4]; [3 # 4]] <= features example_model)%nat)
    by qcompute.
  destruct (@contribution_score example_model [[1 # 4]; [3 # 4]] 1 0 (3 # 4)
              example_fitted eq_refl Hc eq_refl)
    as [r1 [Hr1 [Hs1 [Hwf Hb]]]].
  destruct (@contribution_score example_model [[1 # 4]; [3 # 4]] 0 0 (1 # 4)
              example_fitted eq_refl Hc eq_refl)
    as [r2 [Hr2 [Hs2 _]]].
  rewrite (@score_in_bin example_model _ _ Hb Hwf (3 # 4) 1%nat) in Hs1
    by qcompute.
  rewrite (@score_in_bin example_model _ _ Hb Hwf (1 # 4) 0%nat) in Hs2
    by qcompute.
  injection Hs1 as E1. injection Hs2 as E2. subst r1 r2.
  do 2 eexists.
  assert (Hd : nth 1 (hist_of example_model 0) 0
               < nth 0 (hist_of example_model 0) 0) by qcompute.
  split; [exact Hr1|]. split; [exact Hr2|].
  split; [reflexivity|]. split; [reflexivity|]. split; [exact Hd|].
  assert (bin_score example_model (hist_of example_model 0) 1
          < bin_score example_model (hist_of example_model 0) 0)%R.
  { apply bin_score_increasing; [qcompute| |exact Hd].
    apply (wf_hist_nth_nonneg 1 Hwf). }
  lra.
Qed.

(** On doubles a density far below [alpha] is absorbed by the sum: the
    two bins of the column 0, 1e20, 1e20 have distinct positive
    densities, and [density + 0.1] is 0.1 for both. *)
Example density_absorbed_by_alpha :
  let h := fst (f64.histogram wide_column 2) in
  PrimFloat.ltb 0 (nth 0 h 0%float) = true
  /\ PrimFloat.ltb (nth 0 h 0%float) (nth 1 h 0%float) = true
  /\ (nth 0 h 0 + 0x1.999999999999ap-4 = 0x1.999999999999ap-4)%float
  /\ (nth 1 h 0 + 0x1.999999999999ap-4 = 0x1.999999999999ap-4)%float
  /\ f64.assertion wide_column 2 = true.
Proof. repeat split; reflexivity. Qed.

(** C9, amended.  On a fitted model, of two query values that lie in two
    bins of one dimension, the one in the bin with the lower density has
    the raw score [log2(density + alpha)] of its bin, which is lower than
    or equal to that of the other and never higher, the score not
    decreasing with the density; after the final change of sign it
    contributes at least as much. *)
Theorem lower_density_lower_score
        (self : HBOS) (X1 X2 : matrix) (j1 j2 i : nat) (v1 v2 : Q)
        (b1 b2 : nat) :
  fitted self ->
  check_array X1 = Ok X1 -> (n_cols X1 <= features self)%nat ->
  check_array X2 = Ok X2 -> (n_cols X2 <= features self)%nat ->
  value_at X1 j1 i = Some v1 -> value_at X2 j2 i = Some v2 ->
  let e := edges_of self i in
  let h := hist_of self i in
  (b1 < length h)%nat -> nth b1 e 0 < v1 -> v1 <= nth (S b1) e 0 ->
  (b2 < length h)%nat -> nth b2 e 0 < v2 -> v2 <= nth (S b2) e 0 ->
  nth b1 h 0 < nth b2 h 0 ->
  exists r1 r2,
    contribution self X1 j1 i = Some r1
    /\ contribution self X2 j2 i = Some r2
    /\ r1 = bin_score self h b1 /\ r2 = bin_score self h b2
    /\ (r1 <= r2)%R /\ (r2 * -1 <= r1 * -1)%R.
Proof.
  intros Hf HX1 Hc1 HX2 Hc2 Hv1 Hv2 e h Hb1 Hlo1 Hhi1 Hb2 Hlo2 Hhi2 Hd.
  destruct (@contribution_score self X1 j1 i v1 Hf HX1 Hc1 Hv1)
    as [r1 [Hr1 [Hs1 [Hwf Hb]]]].
  destruct (@contribution_score self X2 j2 i v2 Hf HX2 Hc2 Hv2)
    as [r2 [Hr2 [Hs2 _]]].
  destruct (@fitted_inv self Hf) as [[[Ha _] _] _].
  fold e h in Hs1, Hs2, Hwf.
  rewrite (@score_in_bin self e h Hb Hwf v1 b1) in Hs1 by assumption.
  rewrite (@score_in_bin self e h Hb Hwf v2 b2) in Hs2 by assumption.
  injection Hs1 as E1. injection Hs2 as E2. subst r1 r2.
  do 2 eexists. split; [exact Hr1|]. split; [exact Hr2|].
  split; [reflexivity|]. split; [reflexivity|].
  assert (bin_score self h b1 <= bin_score self h b2)%R.
  { apply bin_score_monotone; [exact Ha| |lra].
    apply (wf_hist_nth_nonneg b1 Hwf). }
  split; lra.
Qed.

Lemma lower_density_lower_score_witness :
  fitted example_model
  /\ nth 1 (hist_of example_model 0) 0 < nth 0 (hist_of example_model 0) 0
  /\ exists r1 r2,
      contribution example_model [[3 # 4]] 0 0 = Some r1
      /\ contribution example_model [[1 # 4]] 0 0 = Some r2
      /\ r1 = bin_score example_model (hist_of example_model 0) 1
      /\ r2 = bin_score example_model (hist_of example_model 0) 0
      /\ (r1 <= r2)%R /\ (r2 * -1 <= r1 * -1)%R.
Proof.
  assert (Hc1 : (n_cols [[3 # 4]] <= features example_model)%nat)
    by qcompute.
  assert (Hc2 : (n_cols [[1 # 4]] <= features example_model)%nat)
    by qcompute.
  assert (Hb1 : (1 < length (hist_of example_model 0))%nat) by qcompute.
  assert (Hlo1 : nth 1 (edges_of example_model 0) 0 < 3 # 4) by qcompute.
  assert (Hhi1 : 3 # 4 <= nth 2 (edges_of example_model 0) 0) by qcompute.
  assert (Hb2 : (0 < length (hist_of example_model 0))%nat) by qcompute.
  assert (Hlo2 : nth 0 (edges_of example_model 0) 0 < 1 # 4) by qcompute.
  assert (Hhi2 : 1 # 4 <= nth 1 (edges_of example_model 0) 0) by qcompute.
  assert (Hd : nth 1 (hist_of example_model 0) 0
               < nth 0 (hist_of example_model 0) 0) by qcompute.
  split; [exact example_fitted|]. split; [exact Hd|].
  exact (@lower_density_lower_score
           example_model [[3 # 4]] [[1 # 4]] 0 0 0 (3 # 4) (1 # 4) 1 0
           example_fitted eq_refl Hc1 eq_refl Hc2 eq_refl eq_refl
           Hb1 Hlo1 Hhi1 Hb2 Hlo2 Hhi2 Hd).
Defined.

(** ** C10: the range of the contributions *)









(** * Further properties of the detector *)

(** ** Training scores and query scores *)

(** The scores [fit] stores for the training matrix are the scores
    [decision_function] returns for it afterwards, one per sample: the
    sign is inverted in the same way at both places. *)
Theorem training_scores_consistent (self self' : HBOS) (X : matrix) :
  fit self X = (self', Ok tt) ->
  exists d,
    decision_scores_ self' = Some d
    /\ decision_function self' X = Ok d
    /\ length d = n_rows X.
Proof.
  intros Hfit. destruct (@fit_success_inv _ _ _ Hfit) as [Hb HX].
  destruct (@fit_ok self X Hb HX)
    as [s [H [E [Hf [Hfs [_ [_ [_ [_ [Hd [HlE _]]]]]]]]]]].
  assert (s = self') by congruence. subst s.
  exists (invert_sum (scores_of self' H E X)).
  split; [exact Hd|]. split.
  - apply (@decision_function_ok self' H E Hfs X HX). lia.
  - unfold invert_sum, scores_of, n_rows. rewrite !length_map. reflexivity.
Qed.

Lemma training_scores_consistent_witness :
  fit example_config example_training = (example_model, Ok tt)
  /\ exists d,
      decision_scores_ example_model = Some d
      /\ decision_function example_model example_training = Ok d
      /\ length d = 3%nat.
Proof.
  assert (Hfit : fit example_config example_training
                 = (example_model, Ok tt)).
  { unfold example_model.
    destruct (@fit_ok example_config example_training)
      as [self' [H [E [Hfit _]]]]; [simpl; lia|reflexivity|].
    rewrite Hfit. reflexivity. }
  split; [exact Hfit|].
  exact (@training_scores_consistent _ _ _ Hfit).
Defined.

(** ** Fitting again *)

Lemma fit_histograms_determined (self : HBOS) (X : matrix)
      (H1 H2 E1 E2 : list (list Q)) :
  length H1 = n_cols X -> length E1 = n_cols X ->
  length H2 = n_cols X -> length E2 = n_cols X ->
  (forall i, (i < n_cols X)%nat ->
             exists h e, np.histogram (column X i) (n_bins self) = Ok (h, e)
                         /\ nth_error H1 i = Some h /\ nth_error E1 i = Some e) ->
  (forall i, (i < n_cols X)%nat ->
             exists h e, np.histogram (column X i) (n_bins self) = Ok (h, e)
                         /\ nth_error H2 i = Some h /\ nth_error E2 i = Some e) ->
  H1 = H2 /\ E1 = E2.
Proof.
  intros L1 L2 L3 L4 F1 F2.
  split; apply nth_error_ext; intros i;
    destruct (Nat.lt_ge_cases i (n_cols X)) as [Hi|Hi].
  - destruct (F1 i Hi) as [h [e [Hh [-> _]]]].
    destruct (F2 i Hi) as [h' [e' [Hh' [-> _]]]]. congruence.
  - rewrite (proj2 (nth_error_None H1 i)), (proj2 (nth_error_None H2 i));
      [reflexivity|lia|lia].
  - destruct (F1 i Hi) as [h [e [Hh [_ ->]]]].
    destruct (F2 i Hi) as [h' [e' [Hh' [_ ->]]]]. congruence.
  - rewrite (proj2 (nth_error_None E1 i)), (proj2 (nth_error_None E2 i));
      [reflexivity|lia|lia].
Qed.

(** A successful [fit] replaces the whole fitted state: what it leaves
    depends on the matrix and on [contamination], [n_bins], [alpha] and
    [tol] only, not on the histograms, scores or classes the detector held
    before.  Fitting a fitted detector again on the same matrix therefore
    changes nothing. *)
Theorem refit_replaces_state (s1 s2 : HBOS) (X : matrix) :
  contamination s1 = contamination s2 -> n_bins s1 = n_bins s2 ->
  alpha s1 = alpha s2 -> tol s1 = tol s2 ->
  snd (fit s1 X) = Ok tt ->
  fit s2 X = fit s1 X
  /\ fit (fst (fit s1 X)) X = fit s1 X.
Proof.
  intros Hc Hn Ha Ht Hok.
  assert (Hfit : fit s1 X = (fst (fit s1 X), Ok tt)).
  { rewrite <- Hok. apply surjective_pairing. }
  destruct (@fit_success_inv _ _ _ Hfit) as [Hb HX].
  assert (Hb2 : (1 <= n_bins s2)%Z) by (rewrite <- Hn; exact Hb).
  destruct (@fit_result s1 X Hb HX) as [H1 [E1 [Hf1 [L1 [L2 F1]]]]].
  assert (Hgen : forall s, contamination s = contamination s1 ->
                           n_bins s = n_bins s1 -> alpha s = alpha s1 ->
                           tol s = tol s1 -> fit s X = fit s1 X).
  { intros s Hc' Hn' Ha' Ht'.
    assert (Hbs : (1 <= n_bins s)%Z) by (rewrite Hn'; exact Hb).
    destruct (@fit_result s X Hbs HX) as [H [E [Hf [L3 [L4 F]]]]].
    rewrite Hn' in F.
    destruct (@fit_histograms_determined s1 X H1 H E1 E L1 L2 L3 L4 F1 F)
      as [<- <-].
    rewrite Hf, Hf1, Hc', Hn', Ha', Ht'.
    rewrite (@scores_of_params s s1) by assumption. reflexivity. }
  split.
  - apply Hgen; symmetry; assumption.
  - apply Hgen; rewrite Hf1; reflexivity.
Qed.

Lemma refit_replaces_state_witness :
  snd (fit example_config example_training) = Ok tt
  /\ fit example_model example_training
     = fit example_config example_training.
Proof.
  assert (Hok : snd (fit example_config example_training) = Ok tt)
    by reflexivity.
  split; [exact Hok|].
  exact (proj2 (@refit_replaces_state example_config example_config
                                      example_training eq_refl eq_refl
                                      eq_refl eq_refl Hok)).
Defined.

(** ** The shape of the fitted arrays *)

(** After a successful [fit], [hist_] has one column of [n_bins]
    densities and [bin_edges_] one column of [n_bins + 1] edges for each
    dimension of the training matrix, [decision_scores_] has one entry
    per sample, and the parameters of the detector are untouched. *)
Theorem fitted_shapes (self self' : HBOS) (X : matrix) :
  fit self X = (self', Ok tt) ->
  (exists H E d,
      hist_ self' = Some H /\ bin_edges_ self' = Some E
      /\ decision_scores_ self' = Some d
      /\ length H = n_cols X /\ length E = n_cols X
      /\ Forall (fun h => Z.of_nat (length h) = n_bins self) H
      /\ Forall (fun e => Z.of_nat (length e) = (n_bins self + 1)%Z) E
      /\ length d = n_rows X)
  /\ contamination self' = contamination self
  /\ n_bins self' = n_bins self
  /\ alpha self' = alpha self /\ tol self' = tol self.
Proof.
  intros Hfit. destruct (@fit_success_inv _ _ _ Hfit) as [Hb HX].
  destruct (@fit_ok self X Hb HX)
    as [s [H [E [Hf [Hfs [Hc [Hn [Ha [Ht [Hd [HlE _]]]]]]]]]]].
  assert (s = self') by congruence. subst s.
  split; [|auto].
  exists H, E, (invert_sum (scores_of self' H E X)).
  pose proof (fs_length Hfs) as HlH.
  split; [apply (fs_hist Hfs)|]. split; [apply (fs_edges Hfs)|].
  split; [exact Hd|]. split; [lia|]. split; [exact HlE|].
  split; [|split].
  - apply Forall_forall. intros h Hh.
    destruct (In_nth_error _ _ Hh) as [i Hi].
    assert (Hil : (i < length E)%nat).
    { rewrite <- HlH. apply nth_error_Some. congruence. }
    pose proof (fs_feature Hfs i (nth_error_nth' E [] Hil) Hi) as Hwf.
    rewrite <- Hn. apply (wf_hist_length Hwf).
  - apply Forall_forall. intros e He.
    destruct (In_nth_error _ _ He) as [i Hi].
    assert (Hil : (i < length H)%nat).
    { rewrite HlH. apply nth_error_Some. congruence. }
    pose proof (fs_feature Hfs i Hi (nth_error_nth' H [] Hil)) as Hwf.
    rewrite <- Hn. apply (wf_edges_length Hwf).
  - unfold invert_sum, scores_of, n_rows. rewrite !length_map. reflexivity.
Qed.

Lemma fitted_shapes_witness :
  fit example_config two_feature_training = (two_feature_model, Ok tt)
  /\ n_bins two_feature_model = n_bins example_config.
Proof.
  assert (Hfit : fit example_config two_feature_training
                 = (two_feature_model, Ok tt)).
  { unfold two_feature_model.
    destruct (@fit_ok example_config two_feature_training)
      as [self' [H [E [Hfit _]]]]; [simpl; lia|reflexivity|].
    rewrite Hfit. reflexivity. }
  split; [exact Hfit|].
  exact (proj1 (proj2 (proj2 (@fitted_shapes _ _ _ Hfit)))).
Defined.

(** ** When [fit] succeeds *)

(** A call of [fit] that succeeds was made with at least one bin on a
    matrix that [check_array] accepts; with fewer than one bin, or on a
    matrix that [check_array] rejects, [fit] raises ValueError. *)
Theorem fit_outcome (self : HBOS) (X : matrix) :
  (snd (fit self X) = Ok tt ->
   (1 <= n_bins self)%Z /\ check_array X = Ok X)
  /\ ((n_bins self < 1)%Z \/ check_array X = Raise ValueError ->
      snd (fit self X) = Raise ValueError).
Proof.
  destruct (fit_cases self X)
    as [[s [Hf [Hb HX]]]|[[Hf HX]|[[Hf Hn]|[Hf [Hz HX]]]]];
    rewrite Hf; cbn [snd]; split; auto; try discriminate.
  intros [Hlt|Hbad]; [lia|congruence].
Qed.

(** ** The training values and the edges *)

Lemma value_at_in_column (X : matrix) (j i : nat) (v : Q) :
  value_at X j i = Some v -> In v (column X i).
Proof.
  unfold value_at, column. intros Hv.
  destruct (nth_error X j) as [row|] eqn:Hj; [|discriminate].
  apply in_map_iff. exists row. split.
  - apply (nth_error_nth _ _ 0 Hv).
  - apply (nth_error_In _ _ Hj).
Qed.

(** The first and the last edge [fit] stores for a dimension are the
    ends of the range [np.histogram] chose for its column. *)
Lemma fit_outer_edges (self self' : HBOS) (X : matrix) (i : nat) :
  fit self X = (self', Ok tt) -> (i < n_cols X)%nat ->
  nth 0 (edges_of self' i) 0 == fst (np.outer_edges (column X i))
  /\ nth (length (hist_of self' i)) (edges_of self' i) 0
     = snd (np.outer_edges (column X i)).
Proof.
  intros Hfit Hi. destruct (@fit_success_inv _ _ _ Hfit) as [Hb HX].
  destruct (check_array_shape HX) as [Hr _].
  destruct (@fit_ok self X Hb HX)
    as [s [H [E [Hf [Hfs [_ [_ [_ [_ [_ [HlE Hcols]]]]]]]]]]].
  assert (s = self') by congruence. subst s.
  destruct (@fitted_state_accessors self' H E i Hfs) as [_ [-> ->]].
  pose proof (column_nonempty X i Hr) as Hne.
  destruct (@histogram_deterministic _ _ _ _ Hb Hne (Hcols i Hi))
    as [He [_ [Hwf _]]].
  assert (Hn : (1 <= Z.to_nat (n_bins self))%nat) by lia.
  assert (Hlen : length (nth i H []) = Z.to_nat (n_bins self)).
  { pose proof (wf_hist_length Hwf). lia. }
  rewrite Hlen, He, linspace_last, linspace_first by exact Hn.
  split; reflexivity.
Qed.

(** After a successful [fit] every value of the training matrix lies
    between the first and the last edge of its dimension: on the training
    matrix the scoring loop meets no value above the last edge, and none
    below the first one. *)
Theorem training_values_in_range (self self' : HBOS) (X : matrix)
        (j i : nat) (v : Q) :
  fit self X = (self', Ok tt) -> value_at X j i = Some v ->
  nth 0 (edges_of self' i) 0 <= v
  /\ v <= nth (length (hist_of self' i)) (edges_of self' i) 0.
Proof.
  intros Hfit Hv. destruct (@fit_success_inv _ _ _ Hfit) as [_ HX].
  destruct (check_array_shape HX) as [Hr _].
  pose proof (@value_at_cols X j i v HX Hv) as Hi.
  destruct (@fit_outer_edges self self' X i Hfit Hi) as [Hfirst Hlast].
  destruct (outer_edges_spec (column_nonempty X i Hr)) as [_ Hin].
  specialize (Hin v (value_at_in_column _ _ _ Hv)).
  rewrite Hfirst, Hlast. exact Hin.
Qed.

Lemma training_values_in_range_witness :
  fit example_config example_training = (example_model, Ok tt)
  /\ value_at example_training 2 0 = Some 1
  /\ 1 <= nth (length (hist_of example_model 0)) (edges_of example_model 0) 0.
Proof.
  assert (Hfit : fit example_config example_training
                 = (example_model, Ok tt)).
  { unfold example_model.
    destruct (@fit_ok example_config example_training)
      as [self' [H [E [Hfit _]]]]; [simpl; lia|reflexivity|].
    rewrite Hfit. reflexivity. }
  split; [exact Hfit|]. split; [reflexivity|].
  exact (proj2 (@training_values_in_range _ _ _ 2%nat 0%nat 1 Hfit eq_refl)).
Defined.

(** ** Scoring sample by sample *)

Lemma check_array_app (X1 X2 : matrix) :
  check_array X1 = Ok X1 -> check_array X2 = Ok X2 ->
  n_cols X1 = n_cols X2 ->
  check_array (X1 ++ X2) = Ok (X1 ++ X2) /\ n_cols (X1 ++ X2) = n_cols X1.
Proof.
  intros H1 H2 Hc.
  destruct (check_array_shape H1) as [Hr1 [Hc1 Hrows1]].
  destruct (check_array_shape H2) as [Hr2 [Hc2 Hrows2]].
  assert (Hn : n_cols (X1 ++ X2) = n_cols X1).
  { unfold n_cols, n_rows in *. destruct X1; simpl in *; [lia|reflexivity]. }
  split; [|exact Hn].
  unfold check_array. rewrite Hn.
  replace ((1 <=? n_rows (X1 ++ X2))%nat) with true
    by (symmetry; apply Nat.leb_le; unfold n_rows in *;
        rewrite length_app; lia).
  replace ((1 <=? n_cols X1)%nat) with true
    by (symmetry; apply Nat.leb_le; exact Hc1).
  replace (forallb (fun row => (length row =? n_cols X1)%nat) (X1 ++ X2))
    with true; [reflexivity|].
  symmetry. apply forallb_forall. intros row Hrow. apply Nat.eqb_eq.
  apply in_app_or in Hrow. destruct Hrow as [Hrow|Hrow].
  - apply Hrows1, Hrow.
  - rewrite Hc. apply Hrows2, Hrow.
Qed.

(** On a fitted model the score of a sample does not depend on the other
    samples of the query: scoring two matrices in one call gives the
    scores of the first followed by the scores of the second. *)
Theorem decision_function_app (self : HBOS) (X1 X2 : matrix) :
  fitted self ->
  check_array X1 = Ok X1 -> check_array X2 = Ok X2 ->
  n_cols X1 = n_cols X2 -> (n_cols X1 <= features self)%nat ->
  exists d1 d2,
    decision_function self X1 = Ok d1
    /\ decision_function self X2 = Ok d2
    /\ decision_function self (X1 ++ X2) = Ok (d1 ++ d2).
Proof.
  intros Hf H1 H2 Hc Hle.
  destruct (@fitted_inv self Hf) as [_ [H [E Hfs]]].
  destruct (@fitted_state_accessors self H E 0%nat Hfs) as [Hfe _].
  rewrite Hfe in Hle.
  destruct (check_array_app H1 H2 Hc) as [H12 Hn].
  exists (invert_sum (scores_of self H E X1)),
         (invert_sum (scores_of self H E X2)).
  split; [apply (@decision_function_ok self H E Hfs X1 H1 Hle)|].
  split; [apply (@decision_function_ok self H E Hfs X2 H2); lia|].
  rewrite (@decision_function_ok self H E Hfs (X1 ++ X2) H12) by lia.
  f_equal. unfold invert_sum, scores_of.
  rewrite Hn, <- Hc, !map_app. reflexivity.
Qed.

Lemma decision_function_app_witness :
  fitted example_model
  /\ check_array [[1 # 4]] = Ok [[1 # 4]]
  /\ check_array [[3 # 4]] = Ok [[3 # 4]]
  /\ n_cols [[1 # 4]] = n_cols [[3 # 4]]
  /\ (n_cols [[1 # 4]] <= features example_model)%nat
  /\ exists d1 d2,
      decision_function example_model [[1 # 4]] = Ok d1
      /\ decision_function example_model [[3 # 4]] = Ok d2
      /\ decision_function example_model ([[1 # 4]] ++ [[3 # 4]])
         = Ok (d1 ++ d2).
Proof.
  assert (Hc : (n_cols [[1 # 4]] <= features example_model)%nat)
    by qcompute.
  split; [exact example_fitted|]. split; [reflexivity|].
  split; [reflexivity|]. split; [reflexivity|]. split; [exact Hc|].
  exact (@decision_function_app example_model [[1 # 4]] [[3 # 4]]
                                example_fitted eq_refl eq_refl eq_refl Hc).
Defined.

(** ** Values beyond the tolerance *)






(** ** A single bin *)

Lemma single_bin_score (self : HBOS) (e h : list Q) (x : Q) :
  (1 <= n_bins self)%Z -> wf_feature (n_bins self) e h ->
  n_bins self = 1%Z ->
  feature_score self e h x = Ok (bin_score self h 0).
Proof.
  intros Hb Hwf H1.
  destruct (@feature_score_total self e h Hb Hwf x) as [b [Hbn Hs]].
  pose proof (wf_hist_length Hwf) as Hl.
  assert (b = 0%nat) by lia. subst b. exact Hs.
Qed.

(** A fitted detector with a single bin does not tell query values
    apart: on each dimension every value, inside or outside the range,
    receives the score of the one bin, and all samples of a query receive
    the same decision score. *)
Theorem single_bin_constant (self : HBOS) (X : matrix) :
  fitted self -> n_bins self = 1%Z ->
  check_array X = Ok X -> (n_cols X <= features self)%nat ->
  (forall j i v,
      value_at X j i = Some v ->
      contribution self X j i = Some (bin_score self (hist_of self i) 0))
  /\ (forall d s1 s2,
         decision_function self X = Ok d -> In s1 d -> In s2 d -> s1 = s2).
Proof.
  intros Hf H1 HX Hc. split.
  - intros j i v Hv.
    destruct (@contribution_score self X j i v Hf HX Hc Hv)
      as [r [Hr [Hs [Hwf Hb]]]].
    rewrite (@single_bin_score self _ _ v Hb Hwf H1) in Hs. congruence.
  - intros d s1 s2 Hd Hs1 Hs2.
    destruct (@fitted_inv self Hf) as [_ [H [E Hfs]]].
    destruct (@fitted_state_accessors self H E 0%nat Hfs) as [Hfe _].
    rewrite Hfe in Hc.
    rewrite (@decision_function_ok self H E Hfs X HX Hc) in Hd.
    injection Hd as <-.
    assert (Hrow : forall s, In s (invert_sum (scores_of self H E X)) ->
                     s = (np.Rsum (map (fun i => bin_score self (nth i H []) 0)
                                       (seq 0 (n_cols X))) * -1)%R).
    { intros s Hs. unfold invert_sum, scores_of in Hs.
      rewrite map_map in Hs. apply in_map_iff in Hs.
      destruct Hs as [row [<- _]]. do 2 f_equal.
      apply map_ext_in. intros i Hi. apply in_seq in Hi.
      assert (Hil : (i < length E)%nat) by lia.
      unfold score_of.
      rewrite (@single_bin_score self _ _ (nth i row 0) (fs_bins Hfs)
                                 (@fitted_feature self H E Hfs i Hil) H1).
      reflexivity. }
    rewrite (Hrow s1 Hs1), (Hrow s2 Hs2). reflexivity.
Qed.

Lemma single_bin_constant_witness :
  fitted single_bin_model /\ n_bins single_bin_model = 1%Z
  /\ check_array [[-3 # 1]] = Ok [[-3 # 1]]
  /\ (n_cols [[-3 # 1]] <= features single_bin_model)%nat
  /\ contribution single_bin_model [[-3 # 1]] 0 0
     = Some (bin_score single_bin_model (hist_of single_bin_model 0) 0).
Proof.
  assert (Hf : fitted single_bin_model).
  { apply fit_gives_fitted; [split; split; reflexivity|qcompute|reflexivity]. }
  assert (H1 : n_bins single_bin_model = 1%Z) by reflexivity.
  assert (Hc : (n_cols [[-3 # 1]] <= features single_bin_model)%nat)
    by qcompute.
  split; [exact Hf|]. split; [exact H1|]. split; [reflexivity|].
  split; [exact Hc|].
  exact (proj1 (@single_bin_constant single_bin_model [[-3 # 1]]
                                     Hf H1 eq_refl Hc)
               0%nat 0%nat (-3 # 1) eq_refl).
Defined.

(** ** The bin that counts a training value and the bin that scores it *)

Lemma bin_counts_nth_pos (a e : list Q) (k : nat) (v : Q) :
  In v a -> (S k < length e)%nat -> nth k e 0 <= v ->
  v < nth (S k) e 0 \/ (v <= nth (S k) e 0 /\ length e = S (S k)) ->
  (1 <= nth k (np.bin_counts a e) 0)%nat.
Proof.
  revert k. induction e as [|lo e IH]; intros k Hv Hk Hlo Hhi;
    simpl in Hk; [lia|].
  destruct e as [|hi rest]; simpl in Hk; [lia|].
  destruct k as [|k].
  - cbn [nth] in Hlo, Hhi. cbn [np.bin_counts nth].
    set (inside := fun x : Q => _).
    assert (Hin : In v (filter inside a)).
    { apply filter_In. split; [exact Hv|]. unfold inside.
      apply andb_true_iff. split; [apply Qle_bool_iff; exact Hlo|].
      destruct rest as [|hi2 rest].
      - apply Qle_bool_iff. destruct Hhi as [Hhi|[Hhi _]]; lra.
      - apply Qlt_bool_iff. destruct Hhi as [Hhi|[_ Hlen]];
          [exact Hhi|simpl in Hlen; lia]. }
    destruct (filter inside a); [contradiction|simpl; lia].
  - change (nth (S k) (np.bin_counts a (lo :: hi :: rest)) 0%nat)
      with (nth k (np.bin_counts a (hi :: rest)) 0%nat).
    apply IH; try assumption.
    + simpl. lia.
    + destruct Hhi as [Hhi|[Hhi Hlen]]; [left; exact Hhi|right].
      split; [exact Hhi|]. simpl in Hlen. simpl. lia.
Qed.

Lemma density_nth_pos (n : list nat) (db : list Q) (t k : nat) :
  length n = length db -> (1 <= nth k n 0)%nat ->
  Forall (fun w => 0 < w) db -> (1 <= t)%nat ->
  0 < nth k (np.density n db t) 0.
Proof.
  revert db k. induction n as [|c n IH]; intros [|w db] k Hlen Hc Hdb Ht;
    simpl in Hlen; try discriminate.
  - destruct k; simpl in Hc; lia.
  - inversion Hdb; subst. destruct k as [|k].
    + cbn [nth] in Hc. cbn [np.density nth]. unfold Qdiv.
      repeat apply Qmult_lt_0_compat.
      * apply inject_nat_pos. exact Hc.
      * apply Qinv_lt_0_compat. assumption.
      * apply Qinv_lt_0_compat, inject_nat_pos. exact Ht.
    + cbn [nth] in Hc. cbn [np.density nth]. apply IH; auto.
Qed.

(** The density of the bin in which [fit] counted a training value is
    positive. *)
Lemma counting_bin_positive (self self' : HBOS) (X : matrix) (j i k : nat)
      (v : Q) :
  fit self X = (self', Ok tt) -> value_at X j i = Some v ->
  let e := edges_of self' i in
  let h := hist_of self' i in
  (k < length h)%nat -> nth k e 0 <= v ->
  v < nth (S k) e 0 \/ (v <= nth (S k) e 0 /\ S k = length h) ->
  0 < nth k h 0.
Proof.
  intros Hfit Hv e h Hk Hlo Hhi.
  destruct (@fit_success_inv _ _ _ Hfit) as [Hb HX].
  destruct (check_array_shape HX) as [Hr _].
  destruct (@fit_ok self X Hb HX)
    as [s [H [E [Hf [Hfs [_ [_ [_ [_ [_ [HlE Hcols]]]]]]]]]]].
  assert (s = self') by congruence. subst s.
  destruct (@fitted_state_accessors self' H E i Hfs) as [_ [He Hh]].
  pose proof (@value_at_cols X j i v HX Hv) as Hi.
  pose proof (column_nonempty X i Hr) as Hne.
  destruct (@histogram_deterministic _ _ _ _ Hb Hne (Hcols i Hi))
    as [_ [Hd [Hwf _]]].
  rewrite <- He, <- Hh in Hd, Hwf. fold e h in Hd, Hwf.
  assert (Hel : length e = S (length h)).
  { pose proof (wf_edges_length Hwf). pose proof (wf_hist_length Hwf). lia. }
  rewrite Hd. apply density_nth_pos.
  - apply bin_counts_length.
  - apply (@bin_counts_nth_pos _ e k v (value_at_in_column _ _ _ Hv));
      [lia|exact Hlo|].
    destruct Hhi as [Hhi|[Hhi Hlast]]; [left; exact Hhi|right].
    split; [exact Hhi|lia].
  - apply sorted_diff_pos, (wf_edges_sorted Hwf).
  - unfold column. rewrite length_map.
    destruct X; simpl in *; [unfold n_rows in Hr; simpl in Hr; lia|lia].
Qed.

(** [np.histogram] counts a value that equals an inner edge in the bin
    above the edge, [np.digitize(right=True)] locates it in the bin below:
    a training value on the inner edge [k] has made the density of bin
    [k] positive and is scored with the density of bin [k - 1]. *)
Theorem inner_edge_scored_below (self self' : HBOS) (X : matrix)
        (j i k : nat) (v : Q) :
  valid_params self -> fit self X = (self', Ok tt) ->
  value_at X j i = Some v ->
  let e := edges_of self' i in
  let h := hist_of self' i in
  (1 <= k)%nat -> (k < length h)%nat -> v == nth k e 0 ->
  0 < nth k h 0
  /\ contribution self' X j i = Some (bin_score self' h (k - 1)).
Proof.
  intros Hp Hfit Hv e h Hk1 Hkn Hedge.
  assert (Hf : fitted self') by (exists self, X; auto).
  destruct (@fit_success_inv _ _ _ Hfit) as [Hb HX].
  assert (Hc : (n_cols X <= features self')%nat)
    by (rewrite (@fit_features_count self self' X Hfit); lia).
  destruct (@contribution_score self' X j i v Hf HX Hc Hv)
    as [r [Hr [Hs [Hwf Hb']]]].
  fold e h in Hs, Hwf.
  assert (Hel : length e = S (length h)).
  { pose proof (wf_edges_length Hwf). pose proof (wf_hist_length Hwf). lia. }
  pose proof (wf_edges_sorted Hwf) as Hsorted.
  split.
  - apply (@counting_bin_positive self self' X j i k v Hfit Hv Hkn).
    + fold e. lra.
    + left. fold e. rewrite Hedge. apply sorted_nth_lt; [exact Hsorted|lia].
  - rewrite Hr. f_equal.
    rewrite (@score_in_bin self' e h Hb' Hwf v (k - 1)) in Hs.
    + congruence.
    + lia.
    + rewrite Hedge. apply sorted_nth_lt; [exact Hsorted|lia].
    + replace (S (k - 1)) with k by lia. lra.
Qed.

Lemma inner_edge_scored_below_witness :
  valid_params example_config
  /\ fit example_config edge_training = (edge_model, Ok tt)
  /\ value_at edge_training 1 0 = Some (1 # 2)
  /\ 1 # 2 == nth 1 (edges_of edge_model 0) 0
  /\ 0 < nth 1 (hist_of edge_model 0) 0
  /\ contribution edge_model edge_training 1 0
     = Some (bin_score edge_model (hist_of edge_model 0) 0).
Proof.
  assert (Hp : valid_params example_config)
    by (split; split; reflexivity).
  assert (Hfit : fit example_config edge_training = (edge_model, Ok tt)).
  { apply fit_gives_fitted; [exact Hp|qcompute|reflexivity]. }
  assert (Hk : (1 < length (hist_of edge_model 0))%nat) by qcompute.
  assert (He : 1 # 2 == nth 1 (edges_of edge_model 0) 0) by qcompute.
  split; [exact Hp|]. split; [exact Hfit|]. split; [reflexivity|].
  split; [exact He|].
  exact (@inner_edge_scored_below example_config edge_model edge_training
           1 0 1 (1 # 2) Hp Hfit eq_refl (le_n 1) Hk He).
Defined.



(** ** After a failed fit without bins *)

Lemma score_sample_zero_bins (self : HBOS) (x : Q) :
  n_bins self = 0%Z ->
  score_sample self [0] [] x (Z.of_nat (np.searchsorted_left [0] x))
  = Raise IndexError.
Proof.
  intros Hz. unfold score_sample. rewrite Hz.
  cbn [np.searchsorted_left]. destruct (Qlt_bool 0 x); reflexivity.
Qed.

(** What a failed [fit] leaves of a detector with zero bins passes the
    check for a fitted detector but never yields a score: on every
    accepted query [decision_function] raises IndexError. *)
Theorem zero_bins_never_scores (self self' : HBOS) (X0 X : matrix)
        (r : result unit) :
  n_bins self = 0%Z -> check_array X0 = Ok X0 -> fit self X0 = (self', r) ->
  check_array X = Ok X ->
  r = Raise ValueError
  /\ check_is_fitted self' = Ok tt
  /\ decision_function self' X = Raise IndexError.
Proof.
  intros Hz HX0 Hfit HX.
  rewrite (fit_zero_bins self Hz HX0) in Hfit. inversion Hfit; subst.
  split; [reflexivity|]. split; [reflexivity|].
  destruct (check_array_shape HX0) as [_ [Hc0 _]].
  destruct (check_array_shape HX) as [Hr [Hc _]].
  unfold decision_function, check_is_fitted.
  cbn [hist_ bin_edges_ set_bin_edges set_hist bind]. rewrite HX.
  cbn [bind]. unfold _calculate_outlier_scores.
  destruct (n_cols X) as [|c]; [lia|].
  destruct (n_cols X0) as [|c0]; [lia|].
  cbn [seq mapM]. unfold score_feature at 1.
  cbn [hist_ bin_edges_ set_bin_edges set_hist get_attr bind repeat
       get_col nth_error alpha].
  unfold np.digitize. cbn [np.monotonicity np.nondecreasing Z.eqb bind].
  cbn [bind]. destruct X as [|row X]; [unfold n_rows in Hr; simpl in Hr; lia|].
  cbn [column map combine mapM fst snd].
  rewrite score_sample_zero_bins by (cbn; exact Hz).
  reflexivity.
Qed.

Lemma zero_bins_never_scores_witness :
  n_bins zero_bins_config = 0%Z
  /\ check_array single_sample = Ok single_sample
  /\ fit zero_bins_config single_sample = (zero_bins_model, Raise ValueError)
  /\ check_array example_training = Ok example_training
  /\ decision_function zero_bins_model example_training = Raise IndexError.
Proof.
  assert (Hfit : fit zero_bins_config single_sample
                 = (zero_bins_model, Raise ValueError)) by reflexivity.
  split; [reflexivity|]. split; [reflexivity|]. split; [exact Hfit|].
  split; [reflexivity|].
  exact (proj2 (proj2 (@zero_bins_never_scores
                         zero_bins_config zero_bins_model single_sample
                         example_training (Raise ValueError)
                         eq_refl eq_refl Hfit eq_refl))).
Defined.

Lemma fit_outcome_witness :
  (n_bins zero_bins_config < 1)%Z
  /\ snd (fit zero_bins_config single_sample) = Raise ValueError
  /\ snd (fit example_config example_training) = Ok tt
  /\ (1 <= n_bins example_config)%Z.
Proof.
  assert (Hb : (n_bins zero_bins_config < 1)%Z) by qcompute.
  assert (Hfit : snd (fit example_config example_training) = Ok tt).
  { destruct (@fit_gives_fitted example_config example_training) as [Hf _];
      [split; split; reflexivity|qcompute|reflexivity|].
    rewrite Hf. reflexivity. }
  split; [exact Hb|].
  split; [exact (proj2 (fit_outcome zero_bins_config single_sample)
                       (or_introl Hb))|].
  split; [exact Hfit|].
  exact (proj1 (proj1 (fit_outcome example_config example_training) Hfit)).
Defined.

(** ** The mass of a fitted histogram *)


